(** * piyolog_weight: the log extractor of [main.py], embedded and verified

    The development follows [main.py] function by function:
    [convert_to_datetime], [parse_weight_entry], the loop of [process_file],
    [plot_weight_data] and [main].  The three library calls the source rests
    on ([re.search], [datetime.strptime] and the [datetime] constructor) are
    given as executable definitions first, so that every claim can be run on
    concrete log lines.

    Scope of the text model: a Python [str] is a list of code points; the
    model covers the code points below 256 (Rocq's [ascii]), with the
    character classes of Python's [re] for [str] patterns on that range. *)

From Stdlib Require Import ZArith QArith Ascii String List Bool Lia.
From stdpp Require Import base option list gmap.

Close Scope Q_scope.
Open Scope Z_scope.

(** ** Text *)

Definition text := list ascii.

Definition str (s : string) : text := list_ascii_of_string s.

Definition code (c : ascii) : Z := Z.of_N (N_of_ascii c).

Definition in_range (lo hi : Z) (c : ascii) : bool :=
  (lo <=? code c) && (code c <=? hi).

(** [\d] of a [str] pattern: Unicode decimal digits; below 256 these are 0-9. *)
Definition is_digit (c : ascii) : bool := in_range 48 57 c.

(** [\s] of a [str] pattern: [str.isspace] characters; below 256 these are
    TAB..CR, FS..US, SPACE, NEL and NBSP. *)
Definition is_space (c : ascii) : bool :=
  in_range 9 13 c || in_range 28 32 c || (code c =? 133) || (code c =? 160).

(** [\w] of a [str] pattern: [str.isalnum] characters and the underscore. *)
Definition is_word (c : ascii) : bool :=
  in_range 48 57 c || in_range 65 90 c || in_range 97 122 c || (code c =? 95)
  || (code c =? 170) || (code c =? 178) || (code c =? 179) || (code c =? 181)
  || (code c =? 185) || (code c =? 186) || in_range 188 190 c
  || in_range 192 214 c || in_range 216 246 c || in_range 248 255 c.

(** [str.lower] on one code point below 256. *)
Definition lower (c : ascii) : ascii :=
  if in_range 65 90 c || in_range 192 214 c || in_range 216 222 c
  then ascii_of_N (N_of_ascii c + 32)
  else c.

Definition text_eqb (a b : text) : bool := bool_decide (a = b).

Fixpoint is_prefix (p s : text) : bool :=
  match p, s with
  | [], _ => true
  | _ :: _, [] => false
  | a :: p', b :: s' => Ascii.eqb a b && is_prefix p' s'
  end.

(** [needle in s] *)
Fixpoint contains (needle s : text) : bool :=
  is_prefix needle s ||
  match s with
  | [] => false
  | _ :: s' => contains needle s'
  end.

(** [s.replace(old, '')] for a one-character [old]. *)
Definition remove_char (old : ascii) (s : text) : text :=
  filter (fun c => c <> old) s.

(** [s.split(sep)] for a one-character [sep]. *)
Fixpoint split (sep : ascii) (s : text) : list text :=
  match s with
  | [] => [[]]
  | c :: s' =>
      if Ascii.eqb c sep then [] :: split sep s'
      else match split sep s' with
           | [] => [[c]]
           | w :: ws => (c :: w) :: ws
           end
  end.

(** ** Exceptions *)

Inductive exn :=
| FileNotFoundError
| OSError          (* any other [OSError]; [IOError] is an alias of it *)
| ValueError.

Inductive result (A : Type) :=
| Ok (a : A)
| Raise (e : exn).
Arguments Ok {A} a.
Arguments Raise {A} e.

Definition bind {A B} (r : result A) (f : A -> result B) : result B :=
  match r with
  | Ok a => f a
  | Raise e => Raise e
  end.

Notation "x <- r ;; k" := (bind r (fun x => k))
  (at level 100, r at next level, right associativity).

Definition of_option {A} (o : option A) : result A :=
  match o with
  | Some a => Ok a
  | None => Raise ValueError
  end.

(** ** Numbers read from text *)

Definition digit_val (c : ascii) : Z := code c - 48.

Fixpoint digits_val (acc : Z) (s : text) : Z :=
  match s with
  | [] => acc
  | c :: s' => digits_val (10 * acc + digit_val c) s'
  end.

Fixpoint lstrip (s : text) : text :=
  match s with
  | c :: s' => if is_space c then lstrip s' else s
  | [] => []
  end.

Definition strip (s : text) : text := rev (lstrip (rev (lstrip s))).

(** [int(s)] on the texts the program passes to it: decimal digits, possibly
    surrounded by white space.  Anything else is a [ValueError]. *)
Definition py_int (s : text) : result Z :=
  let t := strip s in
  if negb (text_eqb t []) && forallb is_digit t
  then Ok (digits_val 0 t)
  else Raise ValueError.

(** [float(s)] on the texts the program passes to it (digits and dots, the
    class [[\d.]] of the weight pattern): digits with at most one dot and at
    least one digit; anything else is a [ValueError].  The result is the exact
    value of the decimal numeral as a reduced fraction; the rounding of that
    value to a double is not part of the model. *)
Definition py_float (s : text) : result Q :=
  match split "." s with
  | [i] =>
      if negb (text_eqb i []) && forallb is_digit i
      then Ok (Qred (digits_val 0 i # 1))
      else Raise ValueError
  | [i; f] =>
      if negb (text_eqb (i ++ f) []) && forallb is_digit (i ++ f)
      then Ok (Qred (Qmake (digits_val 0 (i ++ f)) (Z.to_pos (10 ^ Z.of_nat (length f)))))
      else Raise ValueError
  | _ => Raise ValueError
  end.

(** ** Regular expressions: the fragment of [re] the program uses

    A backtracking matcher in the style of Python's [re]: alternatives are
    tried left to right, [+] is greedy and gives characters back one at a
    time, and the first way of matching that succeeds is the match. *)

Inductive regex :=
| Eps
| Lit (c : ascii)                   (* a literal character *)
| Cls (p : ascii -> bool)           (* one character of a class *)
| Plus (p : ascii -> bool)          (* [c+] for a class [c], greedy *)
| Seq (r1 r2 : regex)
| Alt (r1 r2 : regex)
| Group (name : text) (r : regex)   (* [(...)] and [(?P<name>...)] *)
| Bnd.                              (* [\b] *)

Definition captures := list (text * text).

(** What a successful match leaves: the groups it captured, in the order in
    which they close, and the text after the match. *)
Definition outcome := option (captures * text).

(** A continuation receives the character before the current position and
    the text still to be matched. *)
Definition cont := option ascii -> text -> outcome.

Definition word_at (c : option ascii) : bool :=
  match c with
  | Some c => is_word c
  | None => false
  end.

Definition orelse (a b : outcome) : outcome :=
  match a with
  | Some x => Some x
  | None => b
  end.

Definition capture (name value : text) (o : outcome) : outcome :=
  match o with
  | Some (caps, rest) => Some ((name, value) :: caps, rest)
  | None => None
  end.

Fixpoint star (p : ascii -> bool) (prev : option ascii) (s : text) (k : cont)
    : outcome :=
  match s with
  | c :: s' =>
      if p c then orelse (star p (Some c) s' k) (k prev s)
      else k prev s
  | [] => k prev s
  end.

Section Matcher.

(** [re.IGNORECASE] *)
Variable ignorecase : bool.

Definition lit_eqb (c x : ascii) : bool :=
  if ignorecase then Ascii.eqb (lower x) (lower c) else Ascii.eqb x c.

Fixpoint m (r : regex) (prev : option ascii) (s : text) (k : cont) : outcome :=
  match r with
  | Eps => k prev s
  | Lit c =>
      match s with
      | x :: s' => if lit_eqb c x then k (Some x) s' else None
      | [] => None
      end
  | Cls p =>
      match s with
      | x :: s' => if p x then k (Some x) s' else None
      | [] => None
      end
  | Plus p =>
      match s with
      | x :: s' => if p x then star p (Some x) s' k else None
      | [] => None
      end
  | Seq r1 r2 => m r1 prev s (fun prev' s' => m r2 prev' s' k)
  | Alt r1 r2 => orelse (m r1 prev s k) (m r2 prev s k)
  | Group name r1 =>
      m r1 prev s (fun prev' s' =>
        capture name (take (length s - length s') s) (k prev' s'))
  | Bnd => if xorb (word_at prev) (word_at (head s)) then k prev s else None
  end.

End Matcher.

(** A match object: the matched text, what follows it, and the groups. *)
Record match_obj := {
  m_group0 : text;
  m_rest : text;
  m_groups : captures
}.

Definition accept : cont := fun _ s' => Some ([], s').

Definition match_at (ic : bool) (r : regex) (prev : option ascii) (s : text)
    : option match_obj :=
  match m ic r prev s accept with
  | Some (caps, s') =>
      Some {| m_group0 := take (length s - length s') s;
              m_rest := s'; m_groups := caps |}
  | None => None
  end.

(** [re.match]: a match at the start of the text. *)
Definition re_match (ic : bool) (r : regex) (s : text) : option match_obj :=
  match_at ic r None s.

Fixpoint search_from (ic : bool) (r : regex) (prev : option ascii) (s : text)
    : option match_obj :=
  match match_at ic r prev s with
  | Some mo => Some mo
  | None =>
      match s with
      | [] => None
      | c :: s' => search_from ic r (Some c) s'
      end
  end.

(** [re.search]: the leftmost position that has a match. *)
Definition re_search (r : regex) (s : text) : option match_obj :=
  search_from false r None s.

Fixpoint assoc (name : text) (caps : captures) : option text :=
  match caps with
  | [] => None
  | (n, v) :: caps' => if text_eqb n name then Some v else assoc name caps'
  end.

Definition group (mo : match_obj) (name : text) : option text :=
  assoc name (m_groups mo).

Definition word (w : text) : regex := fold_right (fun c r => Seq (Lit c) r) Eps w.

Fixpoint alts (rs : list regex) : regex :=
  match rs with
  | [] => Cls (fun _ => false)
  | [r] => r
  | r :: rs' => Alt r (alts rs')
  end.

Definition digit_in (lo hi : Z) (c : ascii) : bool := in_range (48 + lo) (48 + hi) c.

(** ** The patterns of [parse_weight_entry] *)

(** [\b\d{2}:\d{2}\b] *)
Definition time_re : regex :=
  Seq Bnd (Seq (Cls is_digit) (Seq (Cls is_digit) (Seq (Lit ":")
    (Seq (Cls is_digit) (Seq (Cls is_digit) Bnd))))).

(** [Weight\s([\d.]+)kg] *)
Definition weight_re : regex :=
  Seq (word (str "Weight")) (Seq (Cls is_space)
    (Seq (Group (str "1") (Plus (fun c => is_digit c || Ascii.eqb c ".")))
      (word (str "kg")))).

(** ** [datetime] *)

Record datetime := {
  year : Z; month : Z; day : Z;
  hour : Z; minute : Z; second : Z; microsecond : Z
}.

#[global] Instance datetime_eq_dec : EqDecision datetime.
Proof. solve_decision. Defined.

#[global] Instance datetime_countable : Countable datetime.
Proof.
  refine (inj_countable'
    (fun d => (year d, month d, day d, hour d, minute d, second d, microsecond d))
    (fun t => let '(y, mo, d, h, mi, s, us) := t in
              {| year := y; month := mo; day := d; hour := h; minute := mi;
                 second := s; microsecond := us |}) _).
  by intros [].
Defined.

Definition is_leap (y : Z) : bool :=
  (y mod 4 =? 0) && (negb (y mod 100 =? 0) || (y mod 400 =? 0)).

Definition days_in_month (y mo : Z) : Z :=
  if mo =? 2 then (if is_leap y then 29 else 28)
  else if (mo =? 4) || (mo =? 6) || (mo =? 9) || (mo =? 11) then 30
  else 31.

Definition between (lo x hi : Z) : bool := (lo <=? x) && (x <=? hi).

Definition valid_date (y mo d : Z) : bool :=
  between 1 y 9999 && between 1 mo 12 && between 1 d (days_in_month y mo).

Definition valid_time (h mi s us : Z) : bool :=
  between 0 h 23 && between 0 mi 59 && between 0 s 59 && between 0 us 999999.

(** The constructor [datetime(year, month, day, hour, minute, second,
    microsecond)]: a [ValueError] when a field is out of range. *)
Definition mk_datetime (y mo d h mi s us : Z) : result datetime :=
  if valid_date y mo d && valid_time h mi s us
  then Ok {| year := y; month := mo; day := d; hour := h; minute := mi;
             second := s; microsecond := us |}
  else Raise ValueError.

(** [datetime.min] *)
Definition datetime_min : datetime :=
  {| year := 1; month := 1; day := 1; hour := 0; minute := 0;
     second := 0; microsecond := 0 |}.

(** [dt.replace(hour=h, minute=mi)] builds a new [datetime] from the fields,
    through the constructor and its checks. *)
Definition replace_hm (dt : datetime) (h mi : Z) : result datetime :=
  mk_datetime (year dt) (month dt) (day dt) h mi (second dt) (microsecond dt).

Definition days_before_year (y : Z) : Z :=
  (y - 1) * 365 + (y - 1) / 4 - (y - 1) / 100 + (y - 1) / 400.

Fixpoint days_before_month (y : Z) (mo : nat) : Z :=
  match mo with
  | O => 0
  | S mo' => days_before_month y mo' + days_in_month y (Z.of_nat mo)
  end.

Definition toordinal (dt : datetime) : Z :=
  days_before_year (year dt)
  + days_before_month (year dt) (Z.to_nat (month dt - 1)) + day dt.

(** [dt.weekday()]: Monday is 0. *)
Definition weekday (dt : datetime) : Z := (toordinal dt + 6) mod 7.

(** The date part and the time of day of a [datetime]. *)
Definition date_of (dt : datetime) : Z * Z * Z := (year dt, month dt, day dt).
Definition time_of (dt : datetime) : Z * Z * Z * Z :=
  (hour dt, minute dt, second dt, microsecond dt).
Definition midnight : Z * Z * Z * Z := (0, 0, 0, 0).

(** ** [datetime.strptime]

    [strptime] turns the format into a regular expression (white space in
    the format becomes [\s+], a directive becomes a named group), matches it
    case-insensitively at the start of the text, refuses text that is left
    over, and builds the date from the groups. *)

Definition a_weekday : list text :=
  map str ["mon"; "tue"; "wed"; "thu"; "fri"; "sat"; "sun"]%string.

Definition a_month : list text :=
  map str [""; "jan"; "feb"; "mar"; "apr"; "may"; "jun";
           "jul"; "aug"; "sep"; "oct"; "nov"; "dec"]%string.

Definition seqToRE (names : list text) (directive : text) : regex :=
  Group directive
    (alts (map word (filter (fun w => negb (text_eqb w [])) names))).

Definition directive_re (d : ascii) : option regex :=
  if Ascii.eqb d "a" then Some (seqToRE a_weekday (str "a"))
  else if Ascii.eqb d "b" then Some (seqToRE a_month (str "b"))
  else if Ascii.eqb d "d" then
    (* (?P<d>3[0-1]|[1-2]\d|0[1-9]|[1-9]| [1-9]) *)
    Some (Group (str "d")
      (alts [Seq (Lit "3") (Cls (digit_in 0 1));
             Seq (Cls (digit_in 1 2)) (Cls is_digit);
             Seq (Lit "0") (Cls (digit_in 1 9));
             Cls (digit_in 1 9);
             Seq (Lit " ") (Cls (digit_in 1 9))]))
  else if Ascii.eqb d "Y" then
    (* (?P<Y>\d\d\d\d) *)
    Some (Group (str "Y")
      (Seq (Cls is_digit) (Seq (Cls is_digit) (Seq (Cls is_digit) (Cls is_digit)))))
  else None.

(** [TimeRE.pattern]; [in_ws] tells that the previous character of the
    format was white space, already turned into [\s+]. *)
Fixpoint pattern (in_ws : bool) (fmt : text) : option regex :=
  match fmt with
  | [] => Some Eps
  | c :: fmt' =>
      if is_space c then
        if in_ws then pattern true fmt'
        else Seq (Plus is_space) <$> pattern true fmt'
      else if Ascii.eqb c "%" then
        match fmt' with
        | d :: fmt'' =>
            match directive_re d, pattern false fmt'' with
            | Some r, Some rest => Some (Seq r rest)
            | _, _ => None
            end
        | [] => None
        end
      else Seq (Lit c) <$> pattern false fmt'
  end.

(** [list.index] *)
Fixpoint index (x : text) (l : list text) : option Z :=
  match l with
  | [] => None
  | y :: l' => if text_eqb y x then Some 0 else Z.succ <$> index x l'
  end.

(** The value of a group, or the default when the format has no such group. *)
Definition field (mo : match_obj) (name : string) (default : Z)
    (conv : text -> result Z) : result Z :=
  match group mo (str name) with
  | Some v => conv v
  | None => Ok default
  end.

Definition strptime (data_string format : text) : result datetime :=
  format_regex <- of_option (pattern false format) ;;
  found <- of_option (re_match true format_regex data_string) ;;
  if negb (text_eqb (m_rest found) []) then Raise ValueError  (* unconverted data remains *)
  else
    y <- field found "Y" 1900 py_int ;;
    mo <- field found "b" 1 (fun v => of_option (index (map lower v) a_month)) ;;
    d <- field found "d" 1 py_int ;;
    _ <- field found "a" 0 (fun v => of_option (index (map lower v) a_weekday)) ;;
    mk_datetime y mo d 0 0 0 0.

(** ** [main.py] *)

(** [convert_to_datetime]: the pair [(True, date_obj)] is [Some date_obj],
    the pair [(False, None)] is [None].  The handler is for [ValueError],
    the one exception [strptime] raises (lemma [strptime_raises]). *)
Definition convert_to_datetime (date_text : text) : option datetime :=
  match strptime date_text (str "%a, %b %d, %Y") with
  | Ok date_obj => Some date_obj
  | Raise _ => None
  end.

(** [parse_weight_entry]: [Ok (Some (time, weight))] for [(True, (time,
    weight))], [Ok None] for [(False, None)]; [float] is not guarded, so its
    [ValueError] leaves the function. *)
Definition parse_weight_entry (txt : text) : result (option (text * Q)) :=
  if contains (str "Weight") txt then
    let time_match := re_search time_re txt in
    let weight_match := re_search weight_re txt in
    match time_match, weight_match with
    | Some tm, Some wm =>
        let time := m_group0 tm in
        g1 <- of_option (group wm (str "1")) ;;
        weight <- py_float g1 ;;
        Ok (Some (time, weight))
    | _, _ => Ok None
    end
  else Ok None.

(** [hours, minutes = map(int, time_str.split(":"))] *)
Definition hours_minutes (time_str : text) : result (Z * Z) :=
  match split ":" time_str with
  | [h; mi] =>
      hours <- py_int h ;;
      minutes <- py_int mi ;;
      Ok (hours, minutes)
  | _ => Raise ValueError
  end.

(** The variables of the loop of [process_file]. *)
Record state := {
  current_date : datetime;
  weight_data : gmap datetime Q
}.

Definition initial : state :=
  {| current_date := datetime_min; weight_data := ∅ |}.

(** The date check of one pass through the loop body. *)
Definition date_step (current : datetime) (line_text : text) : datetime :=
  match convert_to_datetime line_text with
  | Some value => value
  | None => current
  end.

(** [line_text.replace('\n', '')] *)
Definition line_of (raw_line : text) : text := remove_char "010" raw_line.

(** One pass through the loop body, from the line as the file yields it. *)
Definition process_line (st : state) (raw_line : text) : result state :=
  let line_text := line_of raw_line in
  let current := date_step (current_date st) line_text in
  entry <- parse_weight_entry line_text ;;
  match entry with
  | Some (time_str, weight) =>
      hm <- hours_minutes time_str ;;
      current' <- replace_hm current (fst hm) (snd hm) ;;
      Ok {| current_date := current';
            weight_data := <[current' := weight]> (weight_data st) |}
  | None => Ok {| current_date := current; weight_data := weight_data st |}
  end.

(** The loop: the state reached, and the exception that stopped it if one
    did.  An exception of the body leaves the dictionary as the lines before
    it built it. *)
Fixpoint process_lines (st : state) (lines : list text) : state * option exn :=
  match lines with
  | [] => (st, None)
  | l :: lines' =>
      match process_line st l with
      | Ok st' => process_lines st' lines'
      | Raise e => (st, Some e)
      end
  end.

(** *** Files and the console *)

(** What iterating over an open file gives: its lines, each with its line
    terminator, and then either the end of the file or an exception of the
    read. *)
Record file := {
  f_lines : list text;
  f_error : option exn
}.

Inductive open_outcome :=
| OpenFails (e : exn)
| Opens (f : file).

(** The file system, as [open(file_name, 'r')] sees it. *)
Definition filesystem := text -> open_outcome.

Record world := {
  fs : filesystem;
  stdout : list text   (* the lines printed so far *)
}.

Definition print (w : world) (line : text) : world :=
  {| fs := fs w; stdout := stdout w ++ [line] |}.

Definition not_found_message (file_name : text) : text :=
  str "Error: The file '" ++ file_name ++ str "' was not found.".

Definition read_error_message (file_name : text) : text :=
  str "Error: Could not read the file '" ++ file_name ++ str "'.".

(** The two [except] clauses of [process_file], reached with the dictionary
    as it is when the exception arrives; after either of them the function
    goes on to [return weight_data]. *)
Definition handlers (w : world) (file_name : text) (e : exn)
    (weight_data : gmap datetime Q) : result (gmap datetime Q) * world :=
  match e with
  | FileNotFoundError => (Ok weight_data, print w (not_found_message file_name))
  | OSError => (Ok weight_data, print w (read_error_message file_name))
  | ValueError => (Raise ValueError, w)
  end.

Definition process_file (w : world) (file_name : text)
    : result (gmap datetime Q) * world :=
  match fs w file_name with
  | OpenFails e => handlers w file_name e ∅
  | Opens f =>
      match process_lines initial (f_lines f) with
      | (st, Some e) => handlers w file_name e (weight_data st)
      | (st, None) =>
          match f_error f with
          | Some e => handlers w file_name e (weight_data st)
          | None => (Ok (weight_data st), w)
          end
      end
  end.

Definition file_name : text := str "log/[PiyoLog]Nov.txt".

(** The exit status of the interpreter: 1 after an uncaught exception. *)
Definition exit_status (r : result unit) : Z :=
  match r with
  | Ok _ => 0
  | Raise _ => 1
  end.

Section Reporter.

(** The regression and the drawing on one observation or more: numeric and
    plotting library code on floating-point data, kept abstract. *)
Variable fit_and_render : list (datetime * Q) -> result unit.

(** [plot_weight_data]: [LinearRegression.fit] refuses an input of no
    samples with a [ValueError]. *)
Definition plot_weight_data (weight_data : gmap datetime Q) : result unit :=
  match map_to_list weight_data with
  | [] => Raise ValueError
  | samples => fit_and_render samples
  end.

Definition main (w : world) : result unit * world :=
  let '(r, w') := process_file w file_name in
  (weight_data <- r ;; plot_weight_data weight_data, w').

End Reporter.

Definition dt (y mo d h mi : Z) : datetime :=
  {| year := y; month := mo; day := d; hour := h; minute := mi;
     second := 0; microsecond := 0 |}.

(** ** Definitions used to state the properties *)

(** The texts [w] a pattern can match and the groups [g] it then captures,
    read off the pattern; [\b] matches the empty text (where it does is not
    recorded here). *)
Fixpoint lang (ic : bool) (r : regex) (w : text) (g : captures) : Prop :=
  match r with
  | Eps => w = [] /\ g = []
  | Lit c => (exists x, w = [x] /\ lit_eqb ic c x = true) /\ g = []
  | Cls p => (exists x, w = [x] /\ p x = true) /\ g = []
  | Plus p => (w <> [] /\ forallb p w = true) /\ g = []
  | Seq r1 r2 =>
      exists w1 w2 g1 g2,
        w = w1 ++ w2 /\ g = g1 ++ g2 /\ lang ic r1 w1 g1 /\ lang ic r2 w2 g2
  | Alt r1 r2 => lang ic r1 w g \/ lang ic r2 w g
  | Group name r1 => exists g1, g = g1 ++ [(name, w)] /\ lang ic r1 w g1
  | Bnd => w = [] /\ g = []
  end.

(** Patterns without [\b]: what they match does not depend on the character
    before the match. *)
Fixpoint bnd_free (r : regex) : bool :=
  match r with
  | Bnd => false
  | Seq r1 r2 | Alt r1 r2 => bnd_free r1 && bnd_free r2
  | Group _ r1 => bnd_free r1
  | _ => true
  end.

(** An upper bound on the length of a match. *)
Fixpoint width (r : regex) : option nat :=
  match r with
  | Eps | Bnd => Some 0%nat
  | Lit _ | Cls _ => Some 1%nat
  | Plus _ => None
  | Seq r1 r2 =>
      match width r1, width r2 with
      | Some a, Some b => Some (a + b)%nat
      | _, _ => None
      end
  | Alt r1 r2 =>
      match width r1, width r2 with
      | Some a, Some b => Some (Nat.max a b)
      | _, _ => None
      end
  | Group _ r1 => width r1
  end.

Definition date_format : text := str "%a, %b %d, %Y".

Definition weekday_re : regex := seqToRE a_weekday (str "a").
Definition month_re : regex := seqToRE a_month (str "b").

Definition day_re : regex :=
  Group (str "d")
    (alts [Seq (Lit "3") (Cls (digit_in 0 1));
           Seq (Cls (digit_in 1 2)) (Cls is_digit);
           Seq (Lit "0") (Cls (digit_in 1 9));
           Cls (digit_in 1 9);
           Seq (Lit " ") (Cls (digit_in 1 9))]).

Definition year_re : regex :=
  Group (str "Y")
    (Seq (Cls is_digit) (Seq (Cls is_digit) (Seq (Cls is_digit) (Cls is_digit)))).

(** What follows the weekday in the pattern of the date format. *)
Definition date_tail_re : regex :=
  Seq (Lit ",") (Seq (Plus is_space) (Seq month_re (Seq (Plus is_space)
    (Seq day_re (Seq (Lit ",") (Seq (Plus is_space) (Seq year_re Eps))))))).

Definition date_re : regex := Seq weekday_re date_tail_re.

(** [strptime] raises nothing but [ValueError]. *)
Definition raises_only {A} (e0 : exn) (r : result A) : Prop :=
  forall e, r = Raise e -> e = e0.

Definition is_sep (c : ascii) : bool := is_space c || Ascii.eqb c ",".

(** No run of more than five characters without a separator; the first run
    has at most [k]. *)
Fixpoint short_runs (k : nat) (s : text) : bool :=
  match s with
  | [] => true
  | c :: s' =>
      if is_sep c then short_runs 5 s'
      else match k with
           | O => false
           | S k' => short_runs k' s'
           end
  end.

(** The observation a line records when the loop reaches it in state [st]:
    the key written into the dictionary and the weight stored under it. *)
Definition observation (st : state) (raw_line : text) : option (datetime * Q) :=
  match parse_weight_entry (line_of raw_line), process_line st raw_line with
  | Ok (Some (_, weight)), Ok st' => Some (current_date st', weight)
  | _, _ => None
  end.

(** The dates of the date headers among some lines, in file order. *)
Definition headers (lines : list text) : list datetime :=
  omap (fun raw_line => convert_to_datetime (line_of raw_line)) lines.

(** The date of the last header among some lines; the date of
    [datetime.min] when there is none. *)
Definition last_header_date (lines : list text) : Z * Z * Z :=
  match last (headers lines) with
  | Some v => date_of v
  | None => date_of datetime_min
  end.

(** A [datetime] as the loop holds it: a date of the calendar with no
    seconds and no microseconds. *)
Definition well_formed (v : datetime) : Prop :=
  valid_date (year v) (month v) (day v) = true
  /\ second v = 0 /\ microsecond v = 0.

(** [strptime] on what follows the weekday of a date header. *)
Definition strptime_tail (rest : text) : result datetime :=
  match m true date_tail_re None rest accept with
  | Some (caps, s') =>
      let found := {| m_group0 := []; m_rest := s'; m_groups := caps |} in
      if negb (text_eqb s' []) then Raise ValueError
      else
        y <- field found "Y" 1900 py_int ;;
        mo <- field found "b" 1 (fun v => of_option (index (map lower v) a_month)) ;;
        d <- field found "d" 1 py_int ;;
        mk_datetime y mo d 0 0 0 0
  | None => Raise ValueError
  end.

Definition header_line : text := str "Wed, Nov 06, 2024" ++ ["010"%char].
Definition weight_line_1 : text := str "06:00 Weight 70.5kg" ++ ["010"%char].
Definition weight_line_2 : text := str "06:00 Weight 71.0kg" ++ ["010"%char].

Definition after_header : state :=
  {| current_date := dt 2024 11 6 0 0; weight_data := ∅ |}.

(** The file of Example 2 of the specification. *)
Definition example_file : file :=
  {| f_lines := [header_line; weight_line_1; weight_line_2]; f_error := None |}.

Definition example_world : world :=
  {| fs := fun _ => Opens example_file; stdout := [] |}.

Definition after_example : state :=
  {| current_date := dt 2024 11 6 6 0;
     weight_data := {[ dt 2024 11 6 6 0 := 71%Q ]} |}.

(** A file with one weight line whose number is not a float. *)
Definition bad_float_line : text := str "06:00 Weight 1.2.3kg".
Definition bad_time_line : text := str "25:00 Weight 70.5kg".

Definition bad_world : world :=
  {| fs := fun _ =>
       Opens {| f_lines := [header_line; bad_float_line]; f_error := None |};
     stdout := [] |}.

Definition missing_world : world :=
  {| fs := fun _ => OpenFails FileNotFoundError; stdout := [] |}.




(** A run takes the diagnostic path when [process_file] prints a message. *)
Definition diagnostic_path (w : world) (name : text) : Prop :=
  exists msg, stdout (process_file w name).2 = stdout w ++ [msg].

Definition monday_line : text := str "Mon, Nov 06, 2024" ++ ["010"%char].

(** The character before the position reached after reading [w]. *)
Definition prev_after (prev : option ascii) (w : text) : option ascii :=
  match last w with
  | Some c => Some c
  | None => prev
  end.

(** The class [[\d.]] of the weight pattern. *)
Definition num_char (c : ascii) : bool := is_digit c || Ascii.eqb c ".".

(** The month abbreviations of [a_month], without its empty first entry. *)
Definition months : list text :=
  map str ["jan"; "feb"; "mar"; "apr"; "may"; "jun";
           "jul"; "aug"; "sep"; "oct"; "nov"; "dec"]%string.

(** A file with a date header and a line that is no weight entry. *)
Definition headers_only_world : world :=
  {| fs := fun _ => Opens {| f_lines := [header_line; str "06:00 Sleep"];
                             f_error := None |};
     stdout := [] |}.

(** A line with two times; the first is no time of day. *)
Definition two_times_line : text := str "25:00 06:00 Weight 70.5kg".

Definition two_times_world : world :=
  {| fs := fun _ =>
       Opens {| f_lines := [header_line; two_times_line]; f_error := None |};
     stdout := [] |}.

(** ** Dictionaries as objects

    [weight_data = {}] makes a new dictionary object, the loop writes into
    that object, and [return weight_data] hands a reference to it to the
    caller.  Here the objects live in a heap, so that what one call leaves
    behind is there when the next call runs. *)

(** The machine: the file system and the console, and the dictionary
    objects made so far, by address. *)
Record machine := {
  the_world : world;
  objects : list (gmap datetime Q)
}.

(** [{}]: a new, empty dictionary object. *)
Definition new_dict (h : list (gmap datetime Q)) : nat * list (gmap datetime Q) := (length h, h ++ [∅]).

(** [d[key] = value] on the object at [l]. *)
Definition setitem (h : list (gmap datetime Q)) (l : nat) (key : datetime) (value : Q) : list (gmap datetime Q) :=
  match h !! l with
  | Some d => <[l := <[key := value]> d]> h
  | None => h
  end.

(** The loop body, with [weight_data] a reference. *)
Definition process_line_at (weight_data : nat) (current_date : datetime)
    (h : list (gmap datetime Q)) (raw_line : text) : result (datetime * list (gmap datetime Q)) :=
  let line_text := line_of raw_line in
  let current := date_step current_date line_text in
  entry <- parse_weight_entry line_text ;;
  match entry with
  | Some (time_str, weight) =>
      hm <- hours_minutes time_str ;;
      current' <- replace_hm current (fst hm) (snd hm) ;;
      Ok (current', setitem h weight_data current' weight)
  | None => Ok (current, h)
  end.

Fixpoint process_lines_at (weight_data : nat) (current_date : datetime)
    (h : list (gmap datetime Q)) (lines : list text) : list (gmap datetime Q) * option exn :=
  match lines with
  | [] => (h, None)
  | l :: lines' =>
      match process_line_at weight_data current_date h l with
      | Ok (current', h') => process_lines_at weight_data current' h' lines'
      | Raise e => (h, Some e)
      end
  end.

(** The two [except] clauses and the [return], with [weight_data] a
    reference. *)
Definition handlers_at (w : world) (file_name : text) (e : exn)
    (weight_data : nat) : result nat * world :=
  match e with
  | FileNotFoundError => (Ok weight_data, print w (not_found_message file_name))
  | OSError => (Ok weight_data, print w (read_error_message file_name))
  | ValueError => (Raise ValueError, w)
  end.

(** [process_file], returning a reference to the dictionary it made. *)
Definition process_file_at (mc : machine) (file_name : text)
    : result nat * machine :=
  let '(weight_data, h) := new_dict (objects mc) in
  let w := the_world mc in
  match fs w file_name with
  | OpenFails e =>
      let '(r, w') := handlers_at w file_name e weight_data in
      (r, {| the_world := w'; objects := h |})
  | Opens f =>
      match process_lines_at weight_data datetime_min h (f_lines f) with
      | (h', Some e) =>
          let '(r, w') := handlers_at w file_name e weight_data in
          (r, {| the_world := w'; objects := h' |})
      | (h', None) =>
          match f_error f with
          | Some e =>
              let '(r, w') := handlers_at w file_name e weight_data in
              (r, {| the_world := w'; objects := h' |})
          | None => (Ok weight_data, {| the_world := w; objects := h' |})
          end
      end
  end.

(** The machine before any call, with the file of Example 2. *)
Definition example_machine : machine :=
  {| the_world := example_world; objects := [] |}.

(** * Properties *)

(** ** The matcher *)

Lemma orelse_Some a b x :
  orelse a b = Some x -> a = Some x \/ (a = None /\ b = Some x).
Proof. destruct a; simpl; intros H; [left | right]; auto. Qed.

Lemma orelse_None_r a : orelse a None = a.
Proof. by destruct a. Qed.

Lemma capture_Some name v o res :
  capture name v o = Some res ->
  exists res', o = Some res' /\ res.1 = (name, v) :: res'.1 /\ res.2 = res'.2.
Proof.
  destruct o as [[caps rest]|]; simpl; [|discriminate].
  intros [= <-]. by exists (caps, rest).
Qed.

Lemma star_sound p : forall s prev k res,
  star p prev s k = Some res ->
  exists w s' prev', s = w ++ s' /\ forallb p w = true /\ k prev' s' = Some res.
Proof.
  induction s as [|c s IH]; intros prev k res; simpl.
  - intros H. by exists [], [], prev.
  - destruct (p c) eqn:Hc.
    + intros H. apply orelse_Some in H as [H | [_ H]].
      * apply IH in H as (w & s' & prev' & -> & Hw & Hk).
        exists (c :: w), s', prev'. simpl. by rewrite Hc, Hw.
      * by exists [], (c :: s), prev.
    + intros H. by exists [], (c :: s), prev.
Qed.

Lemma take_matched (w s' : text) : take (length (w ++ s') - length s') (w ++ s') = w.
Proof.
  rewrite length_app, Nat.add_sub. by rewrite take_app_length.
Qed.

(** What the matcher finds is in the language of the pattern: the text is
    split into the match and what the continuation got, and the groups of
    the match come in front of those of the continuation. *)
Lemma m_sound ic r : forall prev s k res,
  m ic r prev s k = Some res ->
  exists w g s' prev' res',
    s = w ++ s' /\ lang ic r w g /\ k prev' s' = Some res'
    /\ res = (g ++ res'.1, res'.2).
Proof.
  induction r as [|c|p|p|r1 IH1 r2 IH2|r1 IH1 r2 IH2|name r1 IH1|];
    intros prev s k [caps rest]; simpl.
  - intros H. by exists [], [], s, prev, (caps, rest).
  - destruct s as [|x s]; [discriminate|].
    destruct (lit_eqb ic c x) eqn:Hx; [|discriminate].
    intros H. exists [x], [], s, (Some x), (caps, rest). eauto 8.
  - destruct s as [|x s]; [discriminate|].
    destruct (p x) eqn:Hx; [|discriminate].
    intros H. exists [x], [], s, (Some x), (caps, rest). eauto 8.
  - destruct s as [|x s]; [discriminate|].
    destruct (p x) eqn:Hx; [|discriminate].
    intros H. apply star_sound in H as (w & s' & prev' & -> & Hw & Hk).
    exists (x :: w), [], s', prev', (caps, rest). simpl. rewrite Hx, Hw.
    by repeat split.
  - intros H.
    apply IH1 in H as (w1 & g1 & s1 & p1 & res1 & -> & Hw1 & H & Hres1).
    apply IH2 in H as (w2 & g2 & s2 & p2 & res2 & -> & Hw2 & H & ->).
    exists (w1 ++ w2), (g1 ++ g2), s2, p2, res2.
    rewrite <- !app_assoc. repeat split; eauto 10.
  - intros H. apply orelse_Some in H as [H | [_ H]].
    + apply IH1 in H as (w & g & s' & p' & res' & ? & ? & ? & ?).
      exists w, g, s', p', res'. eauto.
    + apply IH2 in H as (w & g & s' & p' & res' & ? & ? & ? & ?).
      exists w, g, s', p', res'. eauto.
  - intros H.
    apply IH1 in H as (w & g & s' & p' & res' & -> & Hw & H & Hres).
    apply capture_Some in H as ([caps'' rest''] & H & Hc & Hr).
    rewrite take_matched in Hc. simpl in *.
    exists w, (g ++ [(name, w)]), s', p', (caps'', rest'').
    repeat split; eauto. rewrite Hres, Hc, Hr. by rewrite <- app_assoc.
  - destruct (xorb _ _); [|discriminate].
    intros H. by exists [], [], s, prev, (caps, rest).
Qed.

Lemma lang_width ic r : forall w g n,
  lang ic r w g -> width r = Some n -> (length w <= n)%nat.
Proof.
  induction r as [|c|p|p|r1 IH1 r2 IH2|r1 IH1 r2 IH2|name r1 IH1|];
    intros w g n; simpl.
  - intros [-> _] [= <-]. simpl. lia.
  - intros [(x & -> & _) _] [= <-]. simpl. lia.
  - intros [(x & -> & _) _] [= <-]. simpl. lia.
  - discriminate.
  - intros (w1 & w2 & g1 & g2 & -> & _ & H1 & H2).
    destruct (width r1) as [a|], (width r2) as [b|]; try discriminate.
    intros [= <-]. rewrite length_app.
    specialize (IH1 _ _ _ H1 eq_refl). specialize (IH2 _ _ _ H2 eq_refl). lia.
  - intros H.
    destruct (width r1) as [a|], (width r2) as [b|]; try discriminate.
    intros [= <-]. destruct H as [H | H].
    + specialize (IH1 _ _ _ H eq_refl). lia.
    + specialize (IH2 _ _ _ H eq_refl). lia.
  - intros (g1 & _ & H). by apply IH1 with g1.
  - intros [-> _] [= <-]. simpl. lia.
Qed.

(** A pattern without [\b] in front of a continuation that ignores the
    previous character ignores it too. *)
Lemma star_prev p : forall s prev prev' k,
  (forall q q' s', k q s' = k q' s') ->
  star p prev s k = star p prev' s k.
Proof.
  induction s as [|c s IH]; intros prev prev' k Hk; simpl; [apply Hk|].
  destruct (p c); [|apply Hk]. by rewrite (Hk prev prev').
Qed.

Lemma m_prev ic r : forall prev prev' s k,
  bnd_free r = true ->
  (forall q q' s', k q s' = k q' s') ->
  m ic r prev s k = m ic r prev' s k.
Proof.
  induction r as [|c|p|p|r1 IH1 r2 IH2|r1 IH1 r2 IH2|name r1 IH1|];
    intros prev prev' s k Hr Hk; simpl in *; try done.
  - apply andb_prop in Hr as [Hr1 Hr2].
    apply IH1; [done|]. intros q q' s'. by apply IH2.
  - apply andb_prop in Hr as [Hr1 Hr2].
    by rewrite (IH1 prev prev'), (IH2 prev prev').
  - apply IH1; [done|]. intros q q' s'. by rewrite (Hk q q').
Qed.

Lemma match_at_sound ic r prev s mo :
  match_at ic r prev s = Some mo ->
  s = m_group0 mo ++ m_rest mo /\ lang ic r (m_group0 mo) (m_groups mo).
Proof.
  unfold match_at.
  destruct (m ic r prev s accept) as [[caps s']|] eqn:H; [|discriminate].
  intros [= <-]. simpl.
  apply m_sound in H as (w & g & s'' & p' & res' & -> & Hw & Hk & Hres).
  unfold accept in Hk. injection Hk as <-. simpl in Hres.
  injection Hres as -> ->. by rewrite take_matched, app_nil_r.
Qed.

Lemma search_from_sound ic r : forall s prev mo,
  search_from ic r prev s = Some mo ->
  exists before, s = before ++ m_group0 mo ++ m_rest mo
                 /\ lang ic r (m_group0 mo) (m_groups mo).
Proof.
  induction s as [|c s IH]; intros prev mo; simpl.
  - destruct (match_at ic r prev []) eqn:H; [|discriminate].
    intros [= ->]. apply match_at_sound in H as [H ?]. by exists [].
  - destruct (match_at ic r prev (c :: s)) eqn:H.
    + intros [= ->]. apply match_at_sound in H as [H ?]. by exists [].
    + intros H'. apply IH in H' as (before & -> & ?). by exists (c :: before).
Qed.

(** ** The date format *)

Lemma pattern_date_format : pattern false date_format = Some date_re.
Proof. reflexivity. Qed.

Lemma raises_only_Ok {A} e0 (a : A) : raises_only e0 (Ok a).
Proof. intros e. discriminate. Qed.

Lemma raises_only_Raise {A} e0 : raises_only e0 (@Raise A e0).
Proof. intros e. congruence. Qed.

Lemma raises_only_bind {A B} e0 (r : result A) (f : A -> result B) :
  raises_only e0 r -> (forall a, raises_only e0 (f a)) ->
  raises_only e0 (bind r f).
Proof.
  intros Hr Hf e. destruct r as [a|e']; simpl; [apply Hf|].
  intros [= <-]. by apply Hr.
Qed.

Lemma raises_only_of_option {A} (o : option A) : raises_only ValueError (of_option o).
Proof. destruct o; [apply raises_only_Ok | apply raises_only_Raise]. Qed.

Lemma raises_only_py_int s : raises_only ValueError (py_int s).
Proof.
  unfold py_int. destruct (_ && _); [apply raises_only_Ok | apply raises_only_Raise].
Qed.

Lemma raises_only_mk_datetime y mo d h mi s us :
  raises_only ValueError (mk_datetime y mo d h mi s us).
Proof.
  unfold mk_datetime. destruct (_ && _); [apply raises_only_Ok | apply raises_only_Raise].
Qed.

Lemma raises_only_field mo name default conv :
  (forall v, raises_only ValueError (conv v)) ->
  raises_only ValueError (field mo name default conv).
Proof. intros H. unfold field. destruct (group _ _); [apply H | apply raises_only_Ok]. Qed.

Create HintDb raises.
#[local] Hint Resolve raises_only_Ok raises_only_Raise raises_only_of_option
  raises_only_py_int raises_only_mk_datetime raises_only_field : raises.

Lemma strptime_raises data fmt : raises_only ValueError (strptime data fmt).
Proof.
  unfold strptime.
  apply raises_only_bind; [auto with raises | intros re].
  apply raises_only_bind; [auto with raises | intros found].
  destruct (negb _); [auto with raises|].
  repeat (apply raises_only_bind; [auto with raises | intros ?]).
  auto with raises.
Qed.

Lemma mk_datetime_Ok y mo d h mi s us v :
  mk_datetime y mo d h mi s us = Ok v ->
  v = {| year := y; month := mo; day := d; hour := h; minute := mi;
         second := s; microsecond := us |}
  /\ valid_date y mo d = true /\ valid_time h mi s us = true.
Proof.
  unfold mk_datetime.
  destruct (valid_date y mo d) eqn:Hd, (valid_time h mi s us) eqn:Ht;
    simpl; intros [= <-]; auto.
Qed.

(** A text [convert_to_datetime] accepts is matched whole by the pattern of
    the format, and the date it returns is a date of the calendar at
    midnight. *)
Lemma convert_to_datetime_Some s v :
  convert_to_datetime s = Some v ->
  (exists g, lang true date_re s g)
  /\ valid_date (year v) (month v) (day v) = true
  /\ time_of v = midnight.
Proof.
  unfold convert_to_datetime.
  destruct (strptime s (str "%a, %b %d, %Y")) as [v'|] eqn:H; [|discriminate].
  intros [= ->]. revert H. unfold strptime.
  change (str "%a, %b %d, %Y") with date_format. rewrite pattern_date_format.
  cbn [of_option bind].
  destruct (re_match true date_re s) as [found|] eqn:Hm; [|discriminate].
  cbn [of_option bind].
  destruct (text_eqb (m_rest found) []) eqn:Hrest; [|discriminate].
  apply bool_decide_eq_true in Hrest. cbn [negb].
  apply match_at_sound in Hm as (-> & Hw). rewrite Hrest, app_nil_r.
  unfold bind.
  repeat match goal with
         | |- context [match ?x with Ok _ => _ | Raise _ => _ end] =>
             destruct x; [|discriminate]
         end.
  intros H. apply mk_datetime_Ok in H as (-> & Hd & _). eauto.
Qed.

(** ** A date header is never a weight line

    In a text the date pattern matches, commas and white space cut the text
    into pieces of at most four characters; the word "Weight" has six. *)

Lemma short_runs_piece : forall a k c r,
  (length a <= k <= 5)%nat -> is_sep c = true ->
  short_runs k (a ++ c :: r) = short_runs 5 r.
Proof.
  induction a as [|x a IH]; intros k c r Hlen Hc; simpl in *.
  - by rewrite Hc.
  - destruct (is_sep x).
    + apply IH; [lia | done].
    + destruct k as [|k]; [lia|]. apply IH; [lia | done].
Qed.

Lemma short_runs_short : forall a k,
  (length a <= k <= 5)%nat -> short_runs k a = true.
Proof.
  induction a as [|x a IH]; intros k Hlen; simpl in *; [done|].
  destruct (is_sep x).
  - apply IH. lia.
  - destruct k as [|k]; [lia|]. apply IH. lia.
Qed.

Lemma short_runs_spaces : forall w r,
  forallb is_space w = true -> short_runs 5 (w ++ r) = short_runs 5 r.
Proof.
  induction w as [|x w IH]; intros r Hw; simpl in *; [done|].
  apply andb_prop in Hw as [Hx Hw]. unfold is_sep. rewrite Hx. simpl. by apply IH.
Qed.

Lemma is_prefix_app : forall p s, is_prefix p s = true -> exists q, s = p ++ q.
Proof.
  induction p as [|a p IH]; intros s; simpl.
  - by exists s.
  - destruct s as [|b s]; [discriminate|].
    intros H. apply andb_prop in H as [Hab H].
    apply Ascii.eqb_eq in Hab as ->. apply IH in H as [q ->]. by exists q.
Qed.

Lemma contains_Weight_long_run : forall s k,
  (k <= 5)%nat -> contains (str "Weight") s = true -> short_runs k s = false.
Proof.
  induction s as [|c s IH]; intros k Hk; [discriminate|].
  cbn [contains]. intros H. apply orb_prop in H as [H | H].
  - apply is_prefix_app in H as [q ->].
    do 6 (destruct k as [|k]; [reflexivity|]). lia.
  - cbn [short_runs]. destruct (is_sep c); [by apply IH|].
    destruct k as [|k]; [done|]. apply IH; [lia | done].
Qed.

Lemma lang_date_re_short_runs s g : lang true date_re s g -> short_runs 5 s = true.
Proof.
  unfold date_re, date_tail_re. cbn [lang].
  intros (a & ? & ? & ? & -> & _ & Ha
          & ? & ? & ? & ? & -> & _ & [(c1 & -> & Hc1) _]
          & ? & ? & ? & ? & -> & _ & [[Hn1 Hw1] _]
          & b & ? & ? & ? & -> & _ & Hb
          & w2 & ? & ? & ? & -> & _ & [[Hn2 Hw2] _]
          & d & ? & ? & ? & -> & _ & Hd
          & ? & ? & ? & ? & -> & _ & [(c2 & -> & Hc2) _]
          & ? & ? & ? & ? & -> & _ & [[Hn3 Hw3] _]
          & y & ? & ? & ? & -> & _ & Hy & -> & _).
  apply (lang_width _ _ _ _ 3%nat) in Ha; [|reflexivity].
  apply (lang_width _ _ _ _ 3%nat) in Hb; [|reflexivity].
  apply (lang_width _ _ _ _ 2%nat) in Hd; [|reflexivity].
  apply (lang_width _ _ _ _ 4%nat) in Hy; [|reflexivity].
  assert (Hcomma : forall c, lit_eqb true "," c = true -> is_sep c = true).
  { intros c. unfold lit_eqb, is_sep. intros H.
    destruct c as [[] [] [] [] [] [] [] []]; try discriminate H; reflexivity. }
  cbn [app]. rewrite short_runs_piece by (auto; lia).
  rewrite short_runs_spaces by done.
  destruct w2 as [|sp w2]; [done|]. cbn [forallb] in Hw2.
  apply andb_prop in Hw2 as [Hx Hw2].
  cbn [app]. rewrite short_runs_piece; [|lia|by unfold is_sep; rewrite Hx].
  rewrite short_runs_spaces by done.
  cbn [app]. rewrite short_runs_piece by (auto; lia).
  rewrite short_runs_spaces by done.
  apply short_runs_short. rewrite app_nil_r. lia.
Qed.

Lemma date_header_no_Weight s v :
  convert_to_datetime s = Some v -> contains (str "Weight") s = false.
Proof.
  intros H. apply convert_to_datetime_Some in H as [[g H] _].
  apply lang_date_re_short_runs in H.
  destruct (contains (str "Weight") s) eqn:Hc; [|done].
  apply (contains_Weight_long_run _ 5%nat) in Hc; [congruence | lia].
Qed.

(** ** The two patterns of a weight line *)

Lemma digit_not_space c : is_digit c = true -> is_space c = false.
Proof. destruct c as [[] [] [] [] [] [] [] []]; (discriminate || reflexivity). Qed.

Lemma digit_not_colon c : is_digit c = true -> Ascii.eqb c ":" = false.
Proof. destruct c as [[] [] [] [] [] [] [] []]; (discriminate || reflexivity). Qed.

Lemma digit_val_range c : is_digit c = true -> 0 <= digit_val c <= 9.
Proof. destruct c as [[] [] [] [] [] [] [] []]; (discriminate || (intros _; by vm_compute)). Qed.

(** The time pattern matches two digits, a colon and two digits. *)
Lemma time_match_shape s tm :
  re_search time_re s = Some tm ->
  exists d1 d2 d3 d4,
    m_group0 tm = [d1; d2; ":"%char; d3; d4]
    /\ is_digit d1 = true /\ is_digit d2 = true
    /\ is_digit d3 = true /\ is_digit d4 = true.
Proof.
  intros H. apply search_from_sound in H as (before & _ & H).
  revert H. generalize (m_group0 tm) (m_groups tm). intros w g.
  unfold time_re. cbn [lang].
  intros (? & ? & ? & ? & -> & _ & [-> _]
          & ? & ? & ? & ? & -> & _ & [(d1 & -> & H1) _]
          & ? & ? & ? & ? & -> & _ & [(d2 & -> & H2) _]
          & ? & ? & ? & ? & -> & _ & [(c & -> & Hc) _]
          & ? & ? & ? & ? & -> & _ & [(d3 & -> & H3) _]
          & ? & ? & ? & ? & -> & _ & [(d4 & -> & H4) _] & [-> _]).
  apply Ascii.eqb_eq in Hc as ->. by exists d1, d2, d3, d4.
Qed.

Lemma py_int_two_digits a b :
  is_digit a = true -> is_digit b = true ->
  py_int [a; b] = Ok (10 * digit_val a + digit_val b).
Proof.
  intros Ha Hb. unfold py_int, strip. cbn [lstrip].
  rewrite (digit_not_space _ Ha). cbn [rev app lstrip].
  rewrite (digit_not_space _ Hb). cbn [rev app forallb].
  rewrite Ha, Hb. unfold text_eqb.
  rewrite bool_decide_eq_false_2 by discriminate.
  cbn [negb andb digits_val]. f_equal; lia.
Qed.

Lemma hours_minutes_digits d1 d2 d3 d4 :
  is_digit d1 = true -> is_digit d2 = true ->
  is_digit d3 = true -> is_digit d4 = true ->
  hours_minutes [d1; d2; ":"%char; d3; d4]
  = Ok (10 * digit_val d1 + digit_val d2, 10 * digit_val d3 + digit_val d4).
Proof.
  intros H1 H2 H3 H4. unfold hours_minutes. cbn [split].
  rewrite (digit_not_colon _ H1), (digit_not_colon _ H2),
    (digit_not_colon _ H3), (digit_not_colon _ H4).
  cbn [Ascii.eqb Bool.eqb].
  by rewrite !py_int_two_digits.
Qed.

(** [hours_minutes] never fails on what the time pattern matched. *)
Lemma hours_minutes_time s tm :
  re_search time_re s = Some tm ->
  exists h mi, hours_minutes (m_group0 tm) = Ok (h, mi) /\ 0 <= h <= 99 /\ 0 <= mi <= 99.
Proof.
  intros H. apply time_match_shape in H as (d1 & d2 & d3 & d4 & -> & H1 & H2 & H3 & H4).
  rewrite hours_minutes_digits by done.
  apply digit_val_range in H1, H2, H3, H4.
  eexists _, _. split; [reflexivity | lia].
Qed.

(** The weight pattern captures group 1. *)
Lemma weight_match_group s wm :
  re_search weight_re s = Some wm ->
  exists g1, group wm (str "1") = Some g1 /\ g1 <> [].
Proof.
  intros H. apply search_from_sound in H as (before & _ & H).
  revert H. unfold group. generalize (m_group0 wm) (m_groups wm). intros w g.
  unfold weight_re. cbn [lang].
  intros (? & ? & ? & ? & -> & -> & Hword
          & ? & ? & ? & ? & -> & -> & [_ ->]
          & ? & ? & ? & ? & -> & -> & (? & -> & [[Hne _] ->]) & Hkg).
  assert (Hnone : forall ic w0 w g, lang ic (word w0) w g -> g = []).
  { intros ic w0. induction w0 as [|c w0 IH]; intros w' g'; cbn.
    - by intros [_ ->].
    - intros (? & ? & ? & ? & _ & -> & [_ ->] & H). by apply IH in H as ->. }
  apply Hnone in Hword as ->. apply Hnone in Hkg as ->.
  eexists. split; [reflexivity | done].
Qed.

(** ** One pass through the loop body *)

Lemma parse_weight_entry_Some t time weight :
  parse_weight_entry t = Ok (Some (time, weight)) ->
  contains (str "Weight") t = true
  /\ exists tm wm g1,
       re_search time_re t = Some tm /\ re_search weight_re t = Some wm
       /\ time = m_group0 tm /\ group wm (str "1") = Some g1
       /\ py_float g1 = Ok weight.
Proof.
  unfold parse_weight_entry.
  destruct (contains (str "Weight") t); [|discriminate].
  destruct (re_search time_re t) as [tm|]; [|discriminate].
  destruct (re_search weight_re t) as [wm|]; [|discriminate].
  destruct (group wm (str "1")) as [g1|] eqn:Hg; [|discriminate].
  cbn [of_option bind].
  destruct (py_float g1) as [w|] eqn:Hf; [|discriminate].
  cbn [bind]. intros [= <- <-]. split; [done|]. by exists tm, wm, g1.
Qed.

Lemma py_float_raises s : raises_only ValueError (py_float s).
Proof.
  unfold py_float.
  repeat match goal with
         | |- context [match ?x with _ => _ end] => destruct x
         end; auto with raises.
Qed.

Lemma parse_weight_entry_raises t : raises_only ValueError (parse_weight_entry t).
Proof.
  unfold parse_weight_entry.
  destruct (contains _ _); [|auto with raises].
  destruct (re_search time_re t); [|auto with raises].
  destruct (re_search weight_re t); [|auto with raises].
  apply raises_only_bind; [auto with raises | intros g1].
  apply raises_only_bind; [apply py_float_raises | auto with raises].
Qed.

Lemma weight_line_no_header t entry :
  parse_weight_entry t = Ok (Some entry) -> convert_to_datetime t = None.
Proof.
  destruct entry as [time weight]. intros H.
  apply parse_weight_entry_Some in H as [H _].
  destruct (convert_to_datetime t) as [v|] eqn:Hv; [|done].
  apply date_header_no_Weight in Hv. congruence.
Qed.

Lemma process_line_ignored st raw :
  parse_weight_entry (line_of raw) = Ok None ->
  process_line st raw
  = Ok {| current_date := date_step (current_date st) (line_of raw);
          weight_data := weight_data st |}.
Proof. unfold process_line. by intros ->. Qed.

Lemma process_line_header st raw v :
  convert_to_datetime (line_of raw) = Some v ->
  process_line st raw = Ok {| current_date := v; weight_data := weight_data st |}.
Proof.
  intros Hv. pose proof (date_header_no_Weight _ _ Hv) as Hc.
  rewrite process_line_ignored.
  - unfold date_step. by rewrite Hv.
  - unfold parse_weight_entry. by rewrite Hc.
Qed.

Lemma process_line_entry st raw time weight h mi k :
  parse_weight_entry (line_of raw) = Ok (Some (time, weight)) ->
  hours_minutes time = Ok (h, mi) ->
  replace_hm (current_date st) h mi = Ok k ->
  process_line st raw
  = Ok {| current_date := k; weight_data := <[k := weight]> (weight_data st) |}.
Proof.
  intros Hp Hhm Hk. unfold process_line, date_step.
  rewrite (weight_line_no_header _ _ Hp), Hp. cbn [bind].
  rewrite Hhm. cbn [bind fst snd]. by rewrite Hk.
Qed.

(** What a pass that returns has done: nothing to the dictionary, or one
    entry written under the current date with the hour and minute of the
    line. *)
Lemma process_line_Ok st raw st' :
  process_line st raw = Ok st' ->
  (parse_weight_entry (line_of raw) = Ok None
   /\ st' = {| current_date := date_step (current_date st) (line_of raw);
               weight_data := weight_data st |})
  \/ (exists time weight h mi k,
        parse_weight_entry (line_of raw) = Ok (Some (time, weight))
        /\ convert_to_datetime (line_of raw) = None
        /\ hours_minutes time = Ok (h, mi)
        /\ replace_hm (current_date st) h mi = Ok k
        /\ st' = {| current_date := k;
                    weight_data := <[k := weight]> (weight_data st) |}).
Proof.
  destruct (parse_weight_entry (line_of raw)) as [[[time weight]|]|e] eqn:Hp.
  - intros H. right.
    pose proof (weight_line_no_header _ _ Hp) as Hd.
    revert H. unfold process_line, date_step. rewrite Hp, Hd. cbn [bind].
    destruct (hours_minutes time) as [[h mi]|] eqn:Hhm; [|discriminate].
    cbn [bind fst snd].
    destruct (replace_hm (current_date st) h mi) as [k|] eqn:Hk; [|discriminate].
    cbn [bind]. intros [= <-]. by exists time, weight, h, mi, k.
  - rewrite process_line_ignored by done. intros [= <-]. by left.
  - unfold process_line. rewrite Hp. discriminate.
Qed.

Lemma process_line_raises st raw : raises_only ValueError (process_line st raw).
Proof.
  unfold process_line.
  apply raises_only_bind; [apply parse_weight_entry_raises | intros [[time weight]|]].
  - apply raises_only_bind.
    + unfold hours_minutes.
      destruct (split ":" time) as [|h [|mi [|]]]; auto with raises.
      repeat (apply raises_only_bind; [auto with raises | intros ?]).
      auto with raises.
    + intros hm. apply raises_only_bind; [|auto with raises].
      unfold replace_hm. auto with raises.
  - auto with raises.
Qed.

Lemma replace_hm_Ok v h mi k :
  replace_hm v h mi = Ok k ->
  k = {| year := year v; month := month v; day := day v; hour := h;
         minute := mi; second := second v; microsecond := microsecond v |}
  /\ valid_date (year v) (month v) (day v) = true
  /\ 0 <= h <= 23 /\ 0 <= mi <= 59.
Proof.
  unfold replace_hm. intros H. apply mk_datetime_Ok in H as (-> & Hd & Ht).
  repeat split; auto; unfold valid_time, between in Ht; lia.
Qed.

Lemma replace_hm_well_formed v h mi :
  well_formed v -> 0 <= h <= 23 -> 0 <= mi <= 59 ->
  replace_hm v h mi
  = Ok {| year := year v; month := month v; day := day v; hour := h;
          minute := mi; second := 0; microsecond := 0 |}.
Proof.
  intros (Hd & Hs & Hus) Hh Hmi. unfold replace_hm, mk_datetime.
  rewrite Hd, Hs, Hus. unfold valid_time, between.
  replace (0 <=? h) with true by lia. replace (h <=? 23) with true by lia.
  replace (0 <=? mi) with true by lia. replace (mi <=? 59) with true by lia.
  reflexivity.
Qed.

(** ** The loop *)

Lemma process_lines_app : forall a b st,
  process_lines st (a ++ b)
  = match process_lines st a with
    | (st', None) => process_lines st' b
    | (st', Some e) => (st', Some e)
    end.
Proof.
  induction a as [|l a IH]; intros b st; simpl; [done|].
  destruct (process_line st l) as [st'|e]; [apply IH | done].
Qed.

Lemma process_lines_snoc a l st st' :
  process_lines st (a ++ [l]) = (st', None) ->
  exists st1, process_lines st a = (st1, None) /\ process_line st1 l = Ok st'.
Proof.
  rewrite process_lines_app.
  destruct (process_lines st a) as [st1 [e|]]; [discriminate|].
  simpl. destruct (process_line st1 l) as [st2|e] eqn:Hl; [|discriminate].
  intros [= <-]. by exists st1.
Qed.

Lemma process_lines_raises : forall lines st st' e,
  process_lines st lines = (st', Some e) -> e = ValueError.
Proof.
  induction lines as [|l lines IH]; intros st st' e; simpl; [discriminate|].
  destruct (process_line st l) as [st1|e1] eqn:Hl; [apply IH|].
  intros [= <- <-]. by apply process_line_raises in Hl.
Qed.

Lemma headers_snoc lines raw :
  headers (lines ++ [raw])
  = headers lines ++ match convert_to_datetime (line_of raw) with
                     | Some v => [v]
                     | None => []
                     end.
Proof.
  unfold headers. rewrite omap_app. simpl.
  by destruct (convert_to_datetime (line_of raw)).
Qed.

Lemma last_header_date_snoc lines raw :
  last_header_date (lines ++ [raw])
  = match convert_to_datetime (line_of raw) with
    | Some v => date_of v
    | None => last_header_date lines
    end.
Proof.
  unfold last_header_date. rewrite headers_snoc.
  destruct (convert_to_datetime (line_of raw)) as [v|].
  - by rewrite last_snoc.
  - by rewrite app_nil_r.
Qed.

Lemma datetime_min_well_formed : well_formed datetime_min.
Proof. by repeat split. Qed.

(** One pass keeps the current date a date of the calendar without seconds,
    and changes its date part at a date header only. *)
Lemma process_line_current st raw st' :
  well_formed (current_date st) ->
  process_line st raw = Ok st' ->
  well_formed (current_date st')
  /\ date_of (current_date st')
     = match convert_to_datetime (line_of raw) with
       | Some v => date_of v
       | None => date_of (current_date st)
       end.
Proof.
  intros Hwf H.
  apply process_line_Ok in H
    as [[_ ->] | (time & weight & h & mi & k & _ & Hd & _ & Hk & ->)]; simpl.
  - unfold date_step.
    destruct (convert_to_datetime (line_of raw)) as [v|] eqn:Hv; [|done].
    apply convert_to_datetime_Some in Hv as (_ & Hd & Ht).
    split; [|done]. injection Ht as _ _ Hs Hus. by repeat split.
  - rewrite Hd. apply replace_hm_Ok in Hk as (-> & Hv & _).
    destruct Hwf as (_ & Hs & Hus). by repeat split.
Qed.

(** The current date of the loop, after the lines read so far: its date part
    is that of the last date header among them. *)
Lemma process_lines_current : forall lines st,
  process_lines initial lines = (st, None) ->
  well_formed (current_date st)
  /\ date_of (current_date st) = last_header_date lines.
Proof.
  induction lines as [|raw lines IH] using rev_ind; intros st.
  - simpl. intros [= <-]. split; [apply datetime_min_well_formed | done].
  - intros H. apply process_lines_snoc in H as (st1 & H1 & Hl).
    apply IH in H1 as [Hwf Hdate].
    apply (process_line_current _ _ _ Hwf) in Hl as [Hwf' Hdate'].
    split; [done|]. rewrite Hdate', last_header_date_snoc.
    by destruct (convert_to_datetime (line_of raw)).
Qed.

Lemma observation_Some st raw k weight :
  observation st raw = Some (k, weight) ->
  exists time h mi,
    parse_weight_entry (line_of raw) = Ok (Some (time, weight))
    /\ convert_to_datetime (line_of raw) = None
    /\ hours_minutes time = Ok (h, mi)
    /\ replace_hm (current_date st) h mi = Ok k
    /\ process_line st raw
       = Ok {| current_date := k; weight_data := <[k := weight]> (weight_data st) |}.
Proof.
  unfold observation.
  destruct (parse_weight_entry (line_of raw)) as [[[time w]|]|] eqn:Hp; try discriminate.
  destruct (process_line st raw) as [st'|] eqn:Hl; [|discriminate].
  intros [= <- <-].
  apply process_line_Ok in Hl
    as [[Hp' _] | (time' & w' & h & mi & k & Hp' & Hd & Hhm & Hk & ->)];
    [congruence|].
  rewrite Hp in Hp'. injection Hp' as <- <-. by exists time, h, mi.
Qed.

Lemma observation_None st raw st' :
  process_line st raw = Ok st' ->
  observation st raw = None ->
  weight_data st' = weight_data st.
Proof.
  intros Hl. unfold observation. rewrite Hl.
  apply process_line_Ok in Hl
    as [[Hp ->] | (time & w & h & mi & k & Hp & _)]; [done|].
  by rewrite Hp.
Qed.

Lemma process_line_observation st raw st' :
  process_line st raw = Ok st' ->
  match observation st raw with
  | Some (k, weight) => weight_data st' = <[k := weight]> (weight_data st)
  | None => weight_data st' = weight_data st
  end.
Proof.
  intros Hl. destruct (observation st raw) as [[k w]|] eqn:Ho.
  - apply observation_Some in Ho as (? & ? & ? & _ & _ & _ & _ & Hl').
    rewrite Hl in Hl'. by injection Hl' as ->.
  - by apply (observation_None st raw).
Qed.

(** Every entry of the dictionary was written by a line read before: the
    last line whose observation has that key. *)
Lemma weight_data_recorded : forall lines st k weight,
  process_lines initial lines = (st, None) ->
  weight_data st !! k = Some weight ->
  exists pre raw post st1,
    lines = pre ++ raw :: post
    /\ process_lines initial pre = (st1, None)
    /\ observation st1 raw = Some (k, weight).
Proof.
  induction lines as [|raw lines IH] using rev_ind; intros st k weight.
  - simpl. intros [= <-]. simpl. by rewrite lookup_empty.
  - intros H Hk. apply process_lines_snoc in H as (st1 & H1 & Hl).
    pose proof (process_line_observation _ _ _ Hl) as Hwd.
    destruct (observation st1 raw) as [[k' w']|] eqn:Ho.
    + rewrite Hwd in Hk. destruct (decide (k' = k)) as [->|Hne].
      * rewrite lookup_insert_eq in Hk. injection Hk as ->.
        by exists lines, raw, [], st1.
      * rewrite lookup_insert_ne in Hk by done.
        destruct (IH _ _ _ H1 Hk) as (pre & raw0 & post & st0 & -> & ? & ?).
        exists pre, raw0, (post ++ [raw]), st0.
        by rewrite <- app_assoc.
    + rewrite Hwd in Hk.
      destruct (IH _ _ _ H1 Hk) as (pre & raw0 & post & st0 & -> & ? & ?).
      exists pre, raw0, (post ++ [raw]), st0.
      by rewrite <- app_assoc.
Qed.

(** ** The weekday of a date header *)

Lemma weekday_token w i :
  index (map lower w) a_weekday = Some i ->
  exists c1 c2 c3, w = [c1; c2; c3] /\ In [lower c1; lower c2; lower c3] a_weekday.
Proof.
  unfold index, a_weekday, text_eqb. cbn [map str list_ascii_of_string].
  repeat (case_bool_decide as E;
    [intros _;
     destruct w as [|c1 [|c2 [|c3 [|c4 w]]]]; simpl in E; try discriminate E;
     exists c1, c2, c3; split; [done|]; rewrite <- E; cbn; tauto
    | clear E]).
  cbn. intros H. discriminate H.
Qed.

Lemma weekday_alternatives c1 c2 c3 rest prev (k : cont) :
  In [lower c1; lower c2; lower c3] a_weekday ->
  m true (alts (map word a_weekday)) prev (c1 :: c2 :: c3 :: rest) k
  = k (Some c3) rest.
Proof.
  unfold a_weekday. cbn [map str list_ascii_of_string In].
  intros H.
  repeat (destruct H as [H | H];
    [injection H as H1 H2 H3;
     cbn -[lower]; unfold lit_eqb; rewrite <- H1, <- H2, <- H3; cbn;
     by rewrite ?orelse_None_r |]).
  destruct H.
Qed.

Lemma m_date_re prev s k :
  m true date_re prev s k
  = m true (alts (map word a_weekday)) prev s (fun p s' =>
      capture (str "a") (take (length s - length s') s)
        (m true date_tail_re p s' k)).
Proof. reflexivity. Qed.

Lemma assoc_other name n v caps :
  n <> name -> assoc name ((n, v) :: caps) = assoc name caps.
Proof. intros H. simpl. unfold text_eqb. by rewrite bool_decide_eq_false_2. Qed.

Lemma assoc_same name v caps : assoc name ((name, v) :: caps) = Some v.
Proof. simpl. unfold text_eqb. by rewrite bool_decide_eq_true_2. Qed.

(** The weekday of the text has no part in the result of [strptime]: after
    any of the seven abbreviations, in any case, the result is that of the
    rest of the text. *)
Lemma strptime_weekday w i rest :
  index (map lower w) a_weekday = Some i ->
  strptime (w ++ rest) date_format = strptime_tail rest.
Proof.
  intros Hi. destruct (weekday_token _ _ Hi) as (c1 & c2 & c3 & -> & Hin).
  unfold strptime. rewrite pattern_date_format. cbn [of_option bind].
  unfold re_match, match_at. rewrite m_date_re.
  cbn [app]. rewrite weekday_alternatives by done.
  change (c1 :: c2 :: c3 :: rest) with ([c1; c2; c3] ++ rest).
  rewrite take_matched.
  rewrite (m_prev true date_tail_re (Some c3) None) by done.
  unfold strptime_tail.
  destruct (m true date_tail_re None rest accept) as [[caps s']|];
    cbn [capture of_option bind]; [|done].
  cbn [m_rest]. destruct (negb (text_eqb s' [])); [done|].
  unfold field, group. cbn [m_groups].
  rewrite !assoc_other by discriminate. rewrite assoc_same, Hi.
  cbn [of_option]. unfold bind.
  repeat match goal with
         | |- context [match ?x with Ok _ => _ | Raise _ => _ end] => destruct x
         end; reflexivity.
Qed.

Lemma convert_to_datetime_weekday w i rest :
  index (map lower w) a_weekday = Some i ->
  convert_to_datetime (w ++ rest)
  = match strptime_tail rest with
    | Ok v => Some v
    | Raise _ => None
    end.
Proof.
  intros Hi. unfold convert_to_datetime.
  change (str "%a, %b %d, %Y") with date_format.
  by rewrite (strptime_weekday _ _ _ Hi).
Qed.

(** The loop never takes an entry out of the dictionary. *)
Lemma process_lines_keeps_keys : forall lines st st' k,
  process_lines st lines = (st', None) ->
  is_Some (weight_data st !! k) ->
  is_Some (weight_data st' !! k).
Proof.
  induction lines as [|raw lines IH]; intros st st' k; simpl.
  - by intros [= <-].
  - destruct (process_line st raw) as [st1|] eqn:Hl; [|discriminate].
    intros H Hk. apply (IH _ _ _ H).
    pose proof (process_line_observation _ _ _ Hl) as Hwd.
    destruct (observation st raw) as [[k' w']|]; rewrite Hwd; [|done].
    destruct (decide (k' = k)) as [->|Hne].
    + rewrite lookup_insert_eq. by eexists.
    + by rewrite lookup_insert_ne.
Qed.

(** * The claims *)

Lemma state_eta st :
  {| current_date := current_date st; weight_data := weight_data st |} = st.
Proof. by destruct st. Qed.

(** What [process_file] returns when it returns: the dictionary of the loop
    over the lines of the file, or the empty one when the file did not
    open. *)
Lemma process_file_Ok w name wd w' :
  process_file w name = (Ok wd, w') ->
  (exists e, fs w name = OpenFails e /\ wd = ∅)
  \/ (exists f st, fs w name = Opens f
        /\ process_lines initial (f_lines f) = (st, None)
        /\ wd = weight_data st).
Proof.
  unfold process_file. destruct (fs w name) as [e|f].
  - intros H. left. exists e. split; [done|].
    destruct e; simpl in H; congruence.
  - destruct (process_lines initial (f_lines f)) as [st [e|]] eqn:Hl.
    + apply process_lines_raises in Hl as ->. discriminate.
    + intros H. right. exists f, st. split; [done|]. split; [done|].
      destruct (f_error f) as [[]|]; simpl in H; congruence.
Qed.

(** A file that opens and is read to its end without an exception. *)
Lemma process_file_read w name f st :
  fs w name = Opens f ->
  process_lines initial (f_lines f) = (st, None) ->
  f_error f = None ->
  process_file w name = (Ok (weight_data st), w).
Proof. unfold process_file. by intros -> -> ->. Qed.

(** C2. Every observation in the dictionary [process_file] returns was
    recorded by a line of the file, and its date (year, month, day) is the
    date of the last date header among the lines before that line; when no
    date header comes before the line, it is the date of [datetime.min],
    year 1, month 1, day 1. *)
Theorem observation_date w name wd w' k weight :
  process_file w name = (Ok wd, w') ->
  wd !! k = Some weight ->
  exists f pre raw post st,
    fs w name = Opens f
    /\ f_lines f = pre ++ raw :: post
    /\ process_lines initial pre = (st, None)
    /\ observation st raw = Some (k, weight)
    /\ date_of k = last_header_date pre
    /\ (headers pre = [] -> date_of k = (1, 1, 1)).
Proof.
  intros H Hk.
  apply process_file_Ok in H as [(e & _ & ->) | (f & st & Hf & Hl & ->)].
  { by rewrite lookup_empty in Hk. }
  destruct (weight_data_recorded _ _ _ _ Hl Hk)
    as (pre & raw & post & st1 & Hlines & Hpre & Ho).
  exists f, pre, raw, post, st1. repeat split; try done.
  - apply observation_Some in Ho as (? & h & mi & _ & _ & _ & Hr & _).
    apply replace_hm_Ok in Hr as (-> & _).
    apply process_lines_current in Hpre as [_ <-]. done.
  - intros Hnone.
    apply observation_Some in Ho as (? & h & mi & _ & _ & _ & Hr & _).
    apply replace_hm_Ok in Hr as (-> & _).
    apply process_lines_current in Hpre as [_ Hd].
    unfold last_header_date in Hd. rewrite Hnone in Hd. exact Hd.
Qed.


Lemma observation_date_witness :
  exists f pre raw post st,
    fs example_world file_name = Opens f
    /\ f_lines f = pre ++ raw :: post
    /\ process_lines initial pre = (st, None)
    /\ observation st raw = Some (dt 2024 11 6 6 0, 71%Q)
    /\ date_of (dt 2024 11 6 6 0) = last_header_date pre
    /\ (headers pre = [] -> date_of (dt 2024 11 6 6 0) = (1, 1, 1)).
Proof.
  apply (observation_date example_world file_name
           {[ dt 2024 11 6 6 0 := 71%Q ]} example_world).
  - apply (process_file_read example_world file_name example_file after_example).
    + reflexivity.
    + vm_compute. reflexivity.
    + reflexivity.
  - vm_compute. reflexivity.
Defined.

(** Lines whose observations have other keys leave the entry of a key as it
    is. *)
Lemma later_lines_keep : forall post st st_end k,
  process_lines st post = (st_end, None) ->
  (forall post1 raw post2 st' weight,
     post = post1 ++ raw :: post2 ->
     process_lines st post1 = (st', None) ->
     observation st' raw <> Some (k, weight)) ->
  weight_data st_end !! k = weight_data st !! k.
Proof.
  induction post as [|raw post IH]; intros st st_end k; simpl.
  - by intros [= <-].
  - destruct (process_line st raw) as [st1|] eqn:Hl; [|discriminate].
    intros Hpost Hno. rewrite (IH _ _ _ Hpost).
    + pose proof (process_line_observation _ _ _ Hl) as Hwd.
      destruct (observation st raw) as [[k' w']|] eqn:Ho; rewrite Hwd; [|done].
      apply lookup_insert_ne. intros ->.
      by apply (Hno [] raw post st w').
    + intros post1 raw' post2 st' weight -> Hpost1.
      apply (Hno (raw :: post1) raw' post2). { done. }
      simpl. by rewrite Hl.
Qed.



(** When a pass through the loop body raises: only on a weight line with
    both tokens, when the number is no float or the time is no time of
    day. *)
Lemma process_line_Raise st raw e :
  well_formed (current_date st) ->
  process_line st raw = Raise e ->
  e = ValueError
  /\ contains (str "Weight") (line_of raw) = true
  /\ exists tm wm g1,
       re_search time_re (line_of raw) = Some tm
       /\ re_search weight_re (line_of raw) = Some wm
       /\ group wm (str "1") = Some g1
       /\ (py_float g1 = Raise ValueError
           \/ exists weight h mi,
                py_float g1 = Ok weight
                /\ hours_minutes (m_group0 tm) = Ok (h, mi)
                /\ (23 < h \/ 59 < mi)).
Proof.
  intros Hwf H. split; [by apply process_line_raises in H|].
  revert H. unfold process_line, parse_weight_entry, date_step.
  destruct (contains (str "Weight") (line_of raw)) eqn:Hc; [|discriminate].
  destruct (re_search time_re (line_of raw)) as [tm|] eqn:Htm; [|discriminate].
  destruct (re_search weight_re (line_of raw)) as [wm|] eqn:Hwm; [|discriminate].
  destruct (weight_match_group _ _ Hwm) as (g1 & Hg & _). rewrite Hg.
  cbn [of_option bind]. intros H. split; [done|]. exists tm, wm, g1.
  do 3 (split; [done|]). destruct (py_float g1) as [weight|e'] eqn:Hf.
  - right. cbn [bind] in H.
    destruct (hours_minutes_time _ _ Htm) as (h & mi & Hhm & Hh & Hmi).
    rewrite Hhm in H. cbn [bind fst snd] in H.
    exists weight, h, mi. do 2 (split; [done|]).
    destruct (convert_to_datetime (line_of raw)) as [v|] eqn:Hv.
    { apply date_header_no_Weight in Hv. congruence. }
    destruct (decide (h <= 23 /\ mi <= 59)) as [[? ?]|Hout]; [|lia].
    rewrite replace_hm_well_formed in H by (done || lia). discriminate H.
  - left. f_equal. by apply (py_float_raises g1).
Qed.

Lemma process_file_loop_raises w name f st e :
  fs w name = Opens f ->
  process_lines initial (f_lines f) = (st, Some e) ->
  process_file w name = (Raise ValueError, w).
Proof.
  intros Hf Hl. unfold process_file. rewrite Hf, Hl.
  by apply process_lines_raises in Hl as ->.
Qed.

(** C4 (the code departs from it). On the line "06:00 Weight 1.2.3kg" both
    patterns match and [float] raises; on "25:00 Weight 70.5kg" both match
    and [replace] raises.  Neither [ValueError] is caught: it leaves the
    loop and [process_file]. *)
Theorem weight_line_raises :
  process_line after_header bad_float_line = Raise ValueError
  /\ process_line after_header bad_time_line = Raise ValueError
  /\ process_file bad_world file_name = (Raise ValueError, bad_world).
Proof.
  split; [by vm_compute|]. split; [by vm_compute|].
  apply (process_file_loop_raises bad_world file_name
           {| f_lines := [header_line; bad_float_line]; f_error := None |}
           after_header ValueError).
  - reflexivity.
  - vm_compute. reflexivity.
Qed.

(** C1 (amended). On a line that contains "Weight", the tokens are the
    first match of each pattern.  When both are found, the first HH:MM is a
    time of day (hour at most 23, minute at most 59) and the number of the
    first "Weight <number>kg" is a float, the line records an observation:
    the loop writes the parsed weight under the current date with that hour
    and minute, and the dictionary [process_file] returns has that
    timestamp, with that weight unless a later line resolves to the same
    timestamp.  When one of the two tokens is missing, the line records
    nothing: the loop variables stay as they were, and [process_file]
    returns what it returns for the file without that line. *)
Theorem first_tokens_recorded w name f pre raw post st :
  fs w name = Opens f ->
  f_lines f = pre ++ raw :: post ->
  process_lines initial pre = (st, None) ->
  contains (str "Weight") (line_of raw) = true ->
  (forall tm wm g1 weight h mi,
     re_search time_re (line_of raw) = Some tm ->
     re_search weight_re (line_of raw) = Some wm ->
     hours_minutes (m_group0 tm) = Ok (h, mi) ->
     0 <= h <= 23 -> 0 <= mi <= 59 ->
     group wm (str "1") = Some g1 ->
     py_float g1 = Ok weight ->
     let k := {| year := year (current_date st);
                 month := month (current_date st);
                 day := day (current_date st);
                 hour := h; minute := mi; second := 0; microsecond := 0 |} in
     process_line st raw
     = Ok {| current_date := k; weight_data := <[k := weight]> (weight_data st) |}
     /\ observation st raw = Some (k, weight)
     /\ forall wd w',
          process_file w name = (Ok wd, w') ->
          is_Some (wd !! k)
          /\ ((forall post1 later post2 st' weight',
                 post = post1 ++ later :: post2 ->
                 process_lines initial (pre ++ raw :: post1) = (st', None) ->
                 observation st' later <> Some (k, weight')) ->
              wd !! k = Some weight))
  /\ (re_search time_re (line_of raw) = None
      \/ re_search weight_re (line_of raw) = None ->
      process_line st raw = Ok st
      /\ observation st raw = None
      /\ forall w2 f2,
           fs w2 name = Opens f2 ->
           f_lines f2 = pre ++ post ->
           f_error f2 = f_error f ->
           (process_file w name).1 = (process_file w2 name).1).
Proof.
  intros Hf Hlines Hpre Hc.
  pose proof (process_lines_current _ _ Hpre) as [Hwf _]. split.
  - intros tm wm g1 weight h mi Htm Hwm Hhm Hh Hmi Hg Hfl k.
    assert (Hp : parse_weight_entry (line_of raw) = Ok (Some (m_group0 tm, weight))).
    { unfold parse_weight_entry. rewrite Hc, Htm, Hwm, Hg. cbn [of_option bind].
      by rewrite Hfl. }
    pose proof (replace_hm_well_formed _ _ _ Hwf Hh Hmi) as Hk.
    pose proof (process_line_entry _ _ _ _ _ _ _ Hp Hhm Hk) as Hl.
    split; [exact Hl|]. split; [unfold observation; by rewrite Hp, Hl|].
    intros wd w' Hfile.
    apply process_file_Ok in Hfile as [(e & He & _) | (f' & st_end & Hf' & Hend & ->)];
      [congruence|].
    rewrite Hf in Hf'. injection Hf' as <-.
    rewrite Hlines, process_lines_app, Hpre in Hend. cbn [process_lines] in Hend.
    fold k in Hl. rewrite Hl in Hend. split.
    + apply (process_lines_keeps_keys _ _ _ k Hend). cbn [weight_data].
      rewrite lookup_insert_eq. by eexists.
    + intros Hlast. rewrite (later_lines_keep _ _ _ k Hend).
      * cbn [weight_data]. apply lookup_insert_eq.
      * intros post1 later post2 st' weight' -> Hpost1.
        apply (Hlast post1 later post2 st' weight'); [done|].
        rewrite process_lines_app, Hpre. cbn [process_lines]. by rewrite Hl.
  - intros Hnone.
    assert (Hp : parse_weight_entry (line_of raw) = Ok None).
    { unfold parse_weight_entry. rewrite Hc.
      destruct Hnone as [-> | ->]; [done|].
      by destruct (re_search time_re (line_of raw)). }
    assert (Hd : convert_to_datetime (line_of raw) = None).
    { destruct (convert_to_datetime (line_of raw)) as [v|] eqn:Hv; [|done].
      apply date_header_no_Weight in Hv. congruence. }
    assert (Hskip : forall st0, process_line st0 raw = Ok st0).
    { intros st0. rewrite (process_line_ignored _ _ Hp).
      unfold date_step. rewrite Hd. by rewrite state_eta. }
    split; [apply Hskip|]. split.
    { unfold observation. by rewrite Hp. }
    intros w2 f2 Hf2 Hlines2 Herr. unfold process_file.
    rewrite Hf, Hf2, Hlines, Hlines2, Herr.
    assert (Hsame : process_lines initial (pre ++ raw :: post)
                    = process_lines initial (pre ++ post)).
    { rewrite !process_lines_app. destruct (process_lines initial pre) as [st0 [e|]];
        [done|]. cbn [process_lines]. by rewrite Hskip. }
    rewrite Hsame.
    destruct (process_lines initial (pre ++ post)) as [st0 [[]|]];
      [done | done | done |].
    by destruct (f_error f) as [[]|].
Qed.

Lemma first_tokens_recorded_witness :
  let k := {| year := year (current_date after_header);
              month := month (current_date after_header);
              day := day (current_date after_header);
              hour := 6; minute := 0; second := 0; microsecond := 0 |} in
  process_line after_header weight_line_1
  = Ok {| current_date := k;
          weight_data := <[k := (141 # 2)%Q]> (weight_data after_header) |}
  /\ observation after_header weight_line_1 = Some (k, (141 # 2)%Q)
  /\ forall wd w',
       process_file example_world file_name = (Ok wd, w') ->
       is_Some (wd !! k)
       /\ ((forall post1 later post2 st' weight',
              [weight_line_2] = post1 ++ later :: post2 ->
              process_lines initial ([header_line] ++ weight_line_1 :: post1)
              = (st', None) ->
              observation st' later <> Some (k, weight')) ->
           wd !! k = Some (141 # 2)%Q).
Proof.
  refine (proj1 (first_tokens_recorded example_world file_name example_file
                   [header_line] weight_line_1 [weight_line_2] after_header
                   _ _ _ _)
            {| m_group0 := str "06:00"; m_rest := str " Weight 70.5kg";
               m_groups := [] |}
            {| m_group0 := str "Weight 70.5kg"; m_rest := [];
               m_groups := [(str "1", str "70.5")] |}
            (str "70.5") (141 # 2)%Q 6 0 _ _ _ _ _ _ _);
    try (vm_compute; reflexivity); lia.
Defined.

(** C1 as stated fails: the line "25:00 06:00 Weight 70.5kg" contains
    "Weight", has the valid time 06:00 (the time pattern matches it where it
    stands) and a valid weight, and yet no observation is recorded: the
    first match of the time pattern is 25:00, [replace] raises, and
    [process_file] ends with that [ValueError]. *)
Lemma first_time_token_decides :
  contains (str "Weight") (line_of two_times_line) = true
  /\ match_at false time_re (Some " "%char) (str "06:00 Weight 70.5kg")
     = Some {| m_group0 := str "06:00"; m_rest := str " Weight 70.5kg";
               m_groups := [] |}
  /\ hours_minutes (str "06:00") = Ok (6, 0)
  /\ re_search weight_re (line_of two_times_line)
     = Some {| m_group0 := str "Weight 70.5kg"; m_rest := [];
               m_groups := [(str "1", str "70.5")] |}
  /\ py_float (str "70.5") = Ok (141 # 2)%Q
  /\ re_search time_re (line_of two_times_line)
     = Some {| m_group0 := str "25:00"; m_rest := str " 06:00 Weight 70.5kg";
               m_groups := [] |}
  /\ process_line after_header two_times_line = Raise ValueError
  /\ observation after_header two_times_line = None
  /\ process_file two_times_world file_name = (Raise ValueError, two_times_world).
Proof.
  do 8 (split; [by vm_compute|]).
  apply (process_file_loop_raises two_times_world file_name
           {| f_lines := [header_line; two_times_line]; f_error := None |}
           after_header ValueError).
  - reflexivity.
  - vm_compute. reflexivity.
Qed.

(** C5. For a path that does not exist, [process_file] returns the empty
    dictionary, no exception leaves it, and it prints one line, the text
    "Error: The file '<path>' was not found.", after what the console
    showed before. *)
Theorem missing_file w name :
  fs w name = OpenFails FileNotFoundError ->
  (process_file w name).1 = Ok ∅
  /\ fs (process_file w name).2 = fs w
  /\ stdout (process_file w name).2
     = stdout w ++ [str "Error: The file '" ++ name ++ str "' was not found."].
Proof. intros H. unfold process_file. by rewrite H. Qed.

Lemma missing_file_witness :
  (process_file missing_world file_name).1 = Ok ∅
  /\ fs (process_file missing_world file_name).2 = fs missing_world
  /\ stdout (process_file missing_world file_name).2
     = stdout missing_world
       ++ [str "Error: The file '" ++ file_name ++ str "' was not found."].
Proof. apply missing_file. reflexivity. Defined.

Lemma missing_file_console :
  stdout (process_file missing_world file_name).2
  = [str "Error: The file 'log/[PiyoLog]Nov.txt' was not found."].
Proof. reflexivity. Qed.











Lemma process_file_fs w name : fs (process_file w name).2 = fs w.
Proof.
  unfold process_file, handlers.
  repeat match goal with
         | |- context [match ?x with _ => _ end] => destruct x
         end; reflexivity.
Qed.

Lemma process_file_result w1 w2 name :
  fs w1 = fs w2 -> (process_file w1 name).1 = (process_file w2 name).1.
Proof.
  intros H. unfold process_file, handlers. rewrite H.
  repeat match goal with
         | |- context [match ?x with _ => _ end] => destruct x
         end; reflexivity.
Qed.

(** The loop on the heap writes into the object of [weight_data] what the
    loop on a dictionary value computes, and into no other object. *)
Lemma process_line_at_spec l current h0 d raw :
  (l < length h0)%nat ->
  process_line_at l current (<[l := d]> h0) raw
  = match process_line {| current_date := current; weight_data := d |} raw with
    | Ok st' => Ok (current_date st', <[l := weight_data st']> h0)
    | Raise e => Raise e
    end.
Proof.
  intros Hl. unfold process_line_at, process_line. cbn [current_date weight_data].
  destruct (parse_weight_entry (line_of raw)) as [[[time weight]|]|e];
    cbn [bind]; [|done|done].
  destruct (hours_minutes time) as [hm|e]; cbn [bind]; [|done].
  destruct (replace_hm _ _ _) as [k|e]; cbn [bind]; [|done].
  unfold setitem. rewrite list_lookup_insert_eq by done.
  by rewrite list_insert_insert_eq.
Qed.

Lemma process_lines_at_spec l : forall lines current h0 d,
  (l < length h0)%nat ->
  process_lines_at l current (<[l := d]> h0) lines
  = let '(st', e) := process_lines {| current_date := current; weight_data := d |}
                       lines in
    (<[l := weight_data st']> h0, e).
Proof.
  induction lines as [|raw lines IH]; intros current h0 d Hl; [done|].
  cbn [process_lines_at process_lines]. rewrite process_line_at_spec by done.
  destruct (process_line {| current_date := current; weight_data := d |} raw)
    as [[current' d']|e]; [|done].
  cbn [current_date weight_data]. by apply IH.
Qed.

Lemma new_dict_insert (h : list (gmap datetime Q)) : h ++ [∅] = <[length h := ∅]> (h ++ [∅]).
Proof. symmetry. by apply list_insert_id, list_lookup_middle. Qed.

(** [process_file] on the heap: it adds one object, the dictionary the
    function on values computes, and returns its address. *)
Lemma process_file_at_spec mc name :
  exists d,
    objects (process_file_at mc name).2 = objects mc ++ [d]
    /\ the_world (process_file_at mc name).2 = (process_file (the_world mc) name).2
    /\ match (process_file (the_world mc) name).1 with
       | Ok wd => (process_file_at mc name).1 = Ok (length (objects mc)) /\ d = wd
       | Raise e => (process_file_at mc name).1 = Raise e
       end.
Proof.
  unfold process_file_at, process_file, new_dict.
  destruct (fs (the_world mc) name) as [e|f].
  - exists ∅. by destruct e.
  - rewrite new_dict_insert, process_lines_at_spec
      by (rewrite length_app; simpl; lia).
    fold initial.
    destruct (process_lines initial (f_lines f)) as [st [e|]] eqn:Hl.
    + exists (weight_data st).
      assert (Hobj : <[length (objects mc) := weight_data st]> (objects mc ++ [∅])
                     = objects mc ++ [weight_data st]).
      { replace (length (objects mc)) with (length (objects mc) + 0)%nat at 1 by lia.
        by rewrite insert_app_r. }
      rewrite Hobj. by destruct e.
    + exists (weight_data st).
      assert (Hobj : <[length (objects mc) := weight_data st]> (objects mc ++ [∅])
                     = objects mc ++ [weight_data st]).
      { replace (length (objects mc)) with (length (objects mc) + 0)%nat at 1 by lia.
        by rewrite insert_app_r. }
      rewrite Hobj. by destruct (f_error f) as [[]|].
Qed.

(** C8. Two calls of [process_file] in a row on the same file: when the
    first returns a dictionary, the second returns another dictionary
    object with the same entries, and leaves the dictionary of the first
    call, and every object that was there before, as it was; when the first
    raises, so does the second.  Nothing that the first call made or printed
    reaches the second. *)
Theorem calls_share_no_state mc name :
  let first := process_file_at mc name in
  let second := process_file_at first.2 name in
  (forall l1, first.1 = Ok l1 ->
     exists l2 wd,
       second.1 = Ok l2 /\ l1 <> l2
       /\ objects first.2 !! l1 = Some wd
       /\ objects second.2 !! l1 = Some wd
       /\ objects second.2 !! l2 = Some wd)
  /\ (forall e, first.1 = Raise e -> second.1 = Raise e)
  /\ (forall l d, objects mc !! l = Some d -> objects second.2 !! l = Some d).
Proof.
  intros first second. unfold second, first.
  destruct (process_file_at_spec mc name) as (d1 & Hobj1 & Hw1 & Hr1).
  destruct (process_file_at_spec (process_file_at mc name).2 name)
    as (d2 & Hobj2 & Hw2 & Hr2).
  assert (Hsame : (process_file (the_world (process_file_at mc name).2) name).1
                  = (process_file (the_world mc) name).1).
  { apply process_file_result. rewrite Hw1. apply process_file_fs. }
  rewrite Hsame in Hr2. rewrite Hobj2, Hobj1 in *.
  destruct ((process_file (the_world mc) name).1) as [wd|e].
  - destruct Hr1 as [Hr1 ->]. destruct Hr2 as [Hr2 ->].
    rewrite length_app in Hr2. simpl in Hr2. split; [|split].
    + intros l1 Hl1. rewrite Hr1 in Hl1. injection Hl1 as <-.
      exists (length (objects mc) + 1)%nat, wd. split; [done|].
      split; [lia|]. split; [apply list_lookup_middle; done|]. split.
      * apply lookup_app_l_Some. by apply list_lookup_middle.
      * apply list_lookup_middle. rewrite length_app. simpl. lia.
    + intros e He. rewrite Hr1 in He. discriminate.
    + intros l d Hl. by do 2 apply lookup_app_l_Some.
  - split; [|split].
    + intros l1 Hl1. rewrite Hr1 in Hl1. discriminate.
    + intros e' He. rewrite Hr1 in He. by rewrite Hr2.
    + intros l d Hl. by do 2 apply lookup_app_l_Some.
Qed.

(** On the file of Example 2: the first call returns the object at address
    0, the second the object at address 1, and both hold 71.0 under
    2024-11-06 06:00. *)
Lemma two_calls_example :
  let first := process_file_at example_machine file_name in
  let second := process_file_at first.2 file_name in
  first.1 = Ok 0%nat /\ second.1 = Ok 1%nat
  /\ length (objects second.2) = 2%nat
  /\ (objects second.2 !! 0%nat) ≫= (fun d => d !! dt 2024 11 6 6 0) = Some 71%Q
  /\ (objects second.2 !! 1%nat) ≫= (fun d => d !! dt 2024 11 6 6 0) = Some 71%Q.
Proof. repeat split; by vm_compute. Qed.

Lemma no_message (l : list text) msg : l <> l ++ [msg].
Proof.
  intros H. apply (f_equal length) in H. rewrite length_app in H. simpl in H. lia.
Qed.

Lemma plot_weight_data_empty fit : plot_weight_data fit ∅ = Raise ValueError.
Proof. unfold plot_weight_data. by rewrite map_to_list_empty. Qed.

(** C9 (amended). On the diagnostic path no exception leaves
    [process_file], and [main] goes on to [plot_weight_data] with the
    dictionary returned: the process ends as that call ends.  After a failed
    open the dictionary is empty, and on an empty dictionary the call raises
    a [ValueError] that nothing catches: the exit status is 1. *)
Theorem diagnostic_then_plot fit w :
  diagnostic_path w file_name ->
  exists wd,
    (process_file w file_name).1 = Ok wd
    /\ (main fit w).1 = plot_weight_data fit wd
    /\ ((exists e, fs w file_name = OpenFails e) -> wd = ∅)
    /\ (wd = ∅ ->
        (main fit w).1 = Raise ValueError /\ exit_status (main fit w).1 = 1).
Proof.
  intros [msg Hmsg].
  assert (Hmain : forall wd, (process_file w file_name).1 = Ok wd ->
                             (main fit w).1 = plot_weight_data fit wd).
  { intros wd. unfold main. destruct (process_file w file_name) as [r w'].
    simpl. by intros ->. }
  assert (Hempty : forall wd, (process_file w file_name).1 = Ok wd -> wd = ∅ ->
            (main fit w).1 = Raise ValueError /\ exit_status (main fit w).1 = 1).
  { intros wd Hwd ->. rewrite (Hmain _ Hwd), plot_weight_data_empty. done. }
  revert Hmsg Hmain Hempty. unfold process_file.
  destruct (fs w file_name) as [e|f] eqn:Hf.
  - destruct e; simpl; intros Hmsg Hmain Hempty;
      try (by apply no_message in Hmsg);
      (exists ∅; split; [done|]; split; [by apply Hmain|]; split; [done|];
       by apply Hempty).
  - destruct (process_lines initial (f_lines f)) as [st [e|]] eqn:Hl.
    { apply process_lines_raises in Hl as ->. simpl. intros Hmsg.
      by apply no_message in Hmsg. }
    destruct (f_error f) as [[]|]; simpl; intros Hmsg Hmain Hempty;
      try (by apply no_message in Hmsg);
      (exists (weight_data st); split; [done|]; split; [by apply Hmain|];
       split; [by intros [? ?]|]; by apply Hempty).
Qed.

Lemma diagnostic_then_plot_witness :
  exists wd,
    (process_file missing_world file_name).1 = Ok wd
    /\ (main (fun _ => Ok tt) missing_world).1
       = plot_weight_data (fun _ => Ok tt) wd
    /\ ((exists e, fs missing_world file_name = OpenFails e) -> wd = ∅)
    /\ (wd = ∅ ->
        (main (fun _ => Ok tt) missing_world).1 = Raise ValueError
        /\ exit_status (main (fun _ => Ok tt) missing_world).1 = 1).
Proof.
  apply (diagnostic_then_plot (fun _ => Ok tt) missing_world).
  exists (not_found_message file_name). reflexivity.
Defined.

(** C9 as stated fails: the file is missing, [process_file] prints its
    message, and the process ends with an uncaught [ValueError] and exit
    status 1, whatever the plotting code does on data. *)
Lemma missing_file_exit_status :
  diagnostic_path missing_world file_name
  /\ (main (fun _ => Ok tt) missing_world).1 = Raise ValueError
  /\ exit_status (main (fun _ => Ok tt) missing_world).1 = 1
  /\ exit_status (main (fun _ => Ok tt) missing_world).1 <> 0.
Proof.
  split; [exists (not_found_message file_name); reflexivity|].
  assert (H : (main (fun _ => Ok tt) missing_world).1 = Raise ValueError).
  { unfold main, process_file. simpl. apply plot_weight_data_empty. }
  rewrite H. by repeat split.
Qed.

(** C10. The weekday of a date header is not checked against its date: when
    the text after the weekday gives the date [v] after one weekday
    abbreviation, it gives [v] after every other one, also after those that
    name another day than the weekday of [v]; the line is a date header and
    the current date becomes [v]. *)
Theorem weekday_not_validated w0 i0 w i rest v st raw :
  index (map lower w0) a_weekday = Some i0 ->
  convert_to_datetime (w0 ++ rest) = Some v ->
  index (map lower w) a_weekday = Some i ->
  i <> weekday v ->
  line_of raw = w ++ rest ->
  convert_to_datetime (line_of raw) = Some v
  /\ process_line st raw = Ok {| current_date := v; weight_data := weight_data st |}.
Proof.
  intros H0 Hv Hw _ Hraw.
  assert (H : convert_to_datetime (line_of raw) = Some v).
  { rewrite Hraw, (convert_to_datetime_weekday _ _ _ Hw).
    by rewrite (convert_to_datetime_weekday _ _ _ H0) in Hv. }
  split; [done|]. by apply process_line_header.
Qed.

Lemma weekday_not_validated_witness :
  convert_to_datetime (line_of monday_line) = Some (dt 2024 11 6 0 0)
  /\ process_line initial monday_line
     = Ok {| current_date := dt 2024 11 6 0 0; weight_data := weight_data initial |}.
Proof.
  apply (weekday_not_validated (str "Wed") 2 (str "Mon") 0 (str ", Nov 06, 2024")
           (dt 2024 11 6 0 0) initial monday_line).
  - vm_compute. reflexivity.
  - vm_compute. reflexivity.
  - vm_compute. reflexivity.
  - vm_compute. discriminate.
  - vm_compute. reflexivity.
Defined.

(** * Further properties of [main.py] *)

(** X1. The two classifications of a line exclude each other: a text that
    [convert_to_datetime] accepts does not contain "Weight", so
    [parse_weight_entry] returns [(False, None)] on it, and a text on which
    [parse_weight_entry] finds an entry is no date header. *)
Theorem header_is_no_weight_entry t v :
  convert_to_datetime t = Some v ->
  contains (str "Weight") t = false
  /\ parse_weight_entry t = Ok None
  /\ forall entry, parse_weight_entry t <> Ok (Some entry).
Proof.
  intros Hv. pose proof (date_header_no_Weight _ _ Hv) as Hc.
  split; [done|]. unfold parse_weight_entry. rewrite Hc. by split.
Qed.

Lemma header_is_no_weight_entry_witness :
  contains (str "Weight") (str "Wed, Nov 06, 2024") = false
  /\ parse_weight_entry (str "Wed, Nov 06, 2024") = Ok None
  /\ forall entry, parse_weight_entry (str "Wed, Nov 06, 2024") <> Ok (Some entry).
Proof.
  apply (header_is_no_weight_entry (str "Wed, Nov 06, 2024") (dt 2024 11 6 0 0)).
  vm_compute. reflexivity.
Defined.

(** X2. A pass through the loop body raises exactly on a weight line on
    which both patterns match and either the text of group 1 is no float or
    the hour is above 23 or the minute above 59; the exception is a
    [ValueError]. *)
Theorem raises_iff_bad_weight_line pre st raw :
  process_lines initial pre = (st, None) ->
  (exists e, process_line st raw = Raise e)
  <-> (contains (str "Weight") (line_of raw) = true
       /\ exists tm wm g1,
            re_search time_re (line_of raw) = Some tm
            /\ re_search weight_re (line_of raw) = Some wm
            /\ group wm (str "1") = Some g1
            /\ (py_float g1 = Raise ValueError
                \/ exists weight h mi,
                     py_float g1 = Ok weight
                     /\ hours_minutes (m_group0 tm) = Ok (h, mi)
                     /\ (23 < h \/ 59 < mi))).
Proof.
  intros Hpre. apply process_lines_current in Hpre as [Hwf _]. split.
  - intros [e He]. by apply (process_line_Raise _ _ _ Hwf) in He as [_ ?].
  - intros (Hc & tm & wm & g1 & Htm & Hwm & Hg & Hbad).
    exists ValueError. unfold process_line, parse_weight_entry.
    rewrite Hc, Htm, Hwm, Hg. cbn [of_option bind].
    destruct Hbad as [-> | (weight & h & mi & Hf & Hhm & Hout)]; [done|].
    rewrite Hf. cbn [bind]. rewrite Hhm.
    cbn [bind fst snd]. unfold replace_hm, mk_datetime, valid_time, between.
    destruct Hout.
    + replace (h <=? 23) with false by lia.
      by rewrite !andb_false_r.
    + replace (mi <=? 59) with false by lia.
      by rewrite !andb_false_r.
Qed.

Lemma raises_iff_bad_weight_line_witness :
  (exists e, process_line after_header bad_time_line = Raise e)
  <-> (contains (str "Weight") (line_of bad_time_line) = true
       /\ exists tm wm g1,
            re_search time_re (line_of bad_time_line) = Some tm
            /\ re_search weight_re (line_of bad_time_line) = Some wm
            /\ group wm (str "1") = Some g1
            /\ (py_float g1 = Raise ValueError
                \/ exists weight h mi,
                     py_float g1 = Ok weight
                     /\ hours_minutes (m_group0 tm) = Ok (h, mi)
                     /\ (23 < h \/ 59 < mi))).
Proof.
  apply (raises_iff_bad_weight_line [header_line] after_header bad_time_line).
  vm_compute. reflexivity.
Defined.

(** X3. What the time pattern finds is two digits, a colon and two digits,
    so [hours, minutes = map(int, time_str.split(":"))] never fails on it:
    it gives two numbers between 0 and 99. *)
Theorem time_token_splits t tm :
  re_search time_re t = Some tm ->
  length (m_group0 tm) = 5%nat
  /\ exists h mi,
       hours_minutes (m_group0 tm) = Ok (h, mi)
       /\ 0 <= h <= 99 /\ 0 <= mi <= 99.
Proof.
  intros H. split; [|by apply (hours_minutes_time t)].
  by apply time_match_shape in H as (? & ? & ? & ? & -> & _).
Qed.

Lemma time_token_splits_witness :
  length (str "25:00") = 5%nat
  /\ exists h mi,
       hours_minutes (str "25:00") = Ok (h, mi)
       /\ 0 <= h <= 99 /\ 0 <= mi <= 99.
Proof.
  apply (time_token_splits (str "25:00 Weight 70.5kg")
           {| m_group0 := str "25:00"; m_rest := str " Weight 70.5kg";
              m_groups := [] |}).
  vm_compute. reflexivity.
Defined.

(** X4. A date [convert_to_datetime] returns is a date of the calendar:
    year 1 to 9999, month 1 to 12, day 1 to the length of that month in that
    year (leap years counted), at 00:00:00.  A text such as
    "Thu, Feb 30, 2024" is therefore no date header. *)
Theorem date_header_is_calendar_date t v :
  convert_to_datetime t = Some v ->
  1 <= year v <= 9999 /\ 1 <= month v <= 12
  /\ 1 <= day v <= days_in_month (year v) (month v)
  /\ hour v = 0 /\ minute v = 0 /\ second v = 0 /\ microsecond v = 0.
Proof.
  intros H. apply convert_to_datetime_Some in H as (_ & Hd & Ht).
  unfold valid_date, between in Hd. injection Ht as -> -> -> ->.
  repeat split; lia.
Qed.

Lemma date_header_is_calendar_date_witness :
  1 <= year (dt 2024 2 29 0 0) <= 9999 /\ 1 <= month (dt 2024 2 29 0 0) <= 12
  /\ 1 <= day (dt 2024 2 29 0 0)
     <= days_in_month (year (dt 2024 2 29 0 0)) (month (dt 2024 2 29 0 0))
  /\ hour (dt 2024 2 29 0 0) = 0 /\ minute (dt 2024 2 29 0 0) = 0
  /\ second (dt 2024 2 29 0 0) = 0 /\ microsecond (dt 2024 2 29 0 0) = 0.
Proof.
  apply (date_header_is_calendar_date (str "Thu, Feb 29, 2024")).
  vm_compute. reflexivity.
Defined.

(** X5. Every timestamp in the dictionary [process_file] returns is a date
    of the calendar with a time of day: hour 0 to 23, minute 0 to 59, and no
    seconds or microseconds. *)
Theorem timestamps_are_minutes w name wd w' k weight :
  process_file w name = (Ok wd, w') ->
  wd !! k = Some weight ->
  valid_date (year k) (month k) (day k) = true
  /\ 0 <= hour k <= 23 /\ 0 <= minute k <= 59
  /\ second k = 0 /\ microsecond k = 0.
Proof.
  intros H Hk.
  apply process_file_Ok in H as [(e & _ & ->) | (f & st & _ & Hl & ->)].
  { by rewrite lookup_empty in Hk. }
  destruct (weight_data_recorded _ _ _ _ Hl Hk)
    as (pre & raw & post & st1 & _ & Hpre & Ho).
  apply process_lines_current in Hpre as [(_ & Hs & Hus) _].
  apply observation_Some in Ho as (? & h & mi & _ & _ & _ & Hr & _).
  apply replace_hm_Ok in Hr as (-> & Hd & Hh & Hmi). by simpl.
Qed.

Lemma timestamps_are_minutes_witness :
  valid_date (year (dt 2024 11 6 6 0)) (month (dt 2024 11 6 6 0))
    (day (dt 2024 11 6 6 0)) = true
  /\ 0 <= hour (dt 2024 11 6 6 0) <= 23 /\ 0 <= minute (dt 2024 11 6 6 0) <= 59
  /\ second (dt 2024 11 6 6 0) = 0 /\ microsecond (dt 2024 11 6 6 0) = 0.
Proof.
  apply (timestamps_are_minutes example_world file_name
           {[ dt 2024 11 6 6 0 := 71%Q ]} example_world (dt 2024 11 6 6 0) 71%Q).
  - apply (process_file_read example_world file_name example_file after_example).
    + reflexivity.
    + vm_compute. reflexivity.
    + reflexivity.
  - vm_compute. reflexivity.
Defined.

(** X6. The timestamps of the dictionary the loop builds are exactly the
    timestamps of the observations its lines recorded: no entry comes from
    anything else, and no later line takes an entry out again. *)
Theorem keys_are_recorded_timestamps lines st_end k :
  process_lines initial lines = (st_end, None) ->
  is_Some (weight_data st_end !! k)
  <-> exists pre raw post st weight,
        lines = pre ++ raw :: post
        /\ process_lines initial pre = (st, None)
        /\ observation st raw = Some (k, weight).
Proof.
  intros Hl. split.
  - intros [weight Hk].
    destruct (weight_data_recorded _ _ _ _ Hl Hk)
      as (pre & raw & post & st & ? & ? & ?).
    by exists pre, raw, post, st, weight.
  - intros (pre & raw & post & st & weight & -> & Hpre & Ho).
    rewrite process_lines_app, Hpre in Hl. simpl in Hl.
    apply observation_Some in Ho as (? & ? & ? & _ & _ & _ & _ & Hraw).
    rewrite Hraw in Hl. apply (process_lines_keeps_keys _ _ _ k Hl).
    simpl. rewrite lookup_insert_eq. by eexists.
Qed.

Lemma keys_are_recorded_timestamps_witness :
  is_Some (weight_data after_example !! dt 2024 11 6 6 0)
  <-> exists pre raw post st weight,
        [header_line; weight_line_1; weight_line_2] = pre ++ raw :: post
        /\ process_lines initial pre = (st, None)
        /\ observation st raw = Some (dt 2024 11 6 6 0, weight).
Proof.
  apply (keys_are_recorded_timestamps
           [header_line; weight_line_1; weight_line_2] after_example).
  vm_compute. reflexivity.
Defined.

(** X7. The dictionary has at most one entry for each line read: its size
    grows by at most one in a pass through the loop body. *)
Theorem size_at_most_lines : forall lines st st',
  process_lines st lines = (st', None) ->
  (size (weight_data st') <= size (weight_data st) + length lines)%nat.
Proof.
  induction lines as [|raw lines IH]; intros st st'; simpl.
  - intros [= <-]. lia.
  - destruct (process_line st raw) as [st1|] eqn:Hl; [|discriminate].
    intros H. apply IH in H.
    pose proof (process_line_observation _ _ _ Hl) as Hwd.
    destruct (observation st raw) as [[k' w']|]; rewrite Hwd in H; [|lia].
    rewrite map_size_insert in H.
    destruct (weight_data st !! k'); simpl in H; lia.
Qed.

Lemma size_at_most_lines_witness :
  (size (weight_data after_example)
   <= size (weight_data initial)
      + length [header_line; weight_line_1; weight_line_2])%nat.
Proof.
  apply (size_at_most_lines [header_line; weight_line_1; weight_line_2]
           initial after_example).
  vm_compute. reflexivity.
Defined.

(** Lines that do not contain "Weight" leave the dictionary alone, and the
    loop does not raise on them. *)
Lemma process_lines_no_Weight : forall lines st,
  Forall (fun raw => contains (str "Weight") (line_of raw) = false) lines ->
  exists st', process_lines st lines = (st', None)
              /\ weight_data st' = weight_data st.
Proof.
  induction lines as [|raw lines IH]; intros st Hall; simpl.
  - by exists st.
  - apply Forall_cons in Hall as [Hraw Hall].
    rewrite process_line_ignored
      by (unfold parse_weight_entry; by rewrite Hraw).
    destruct (IH {| current_date := date_step (current_date st) (line_of raw);
                    weight_data := weight_data st |} Hall) as (st' & -> & Hwd).
    by exists st'.
Qed.

(** X8. When the file is read to its end and none of its lines contains
    "Weight", [process_file] returns the empty dictionary and prints
    nothing, and [main] ends with the [ValueError] of the regression on no
    samples: exit status 1, without any diagnostic. *)
Theorem no_weight_lines fit w f :
  fs w file_name = Opens f ->
  f_error f = None ->
  Forall (fun raw => contains (str "Weight") (line_of raw) = false) (f_lines f) ->
  process_file w file_name = (Ok ∅, w)
  /\ main fit w = (Raise ValueError, w)
  /\ exit_status (main fit w).1 = 1.
Proof.
  intros Hf He Hall.
  destruct (process_lines_no_Weight _ initial Hall) as (st & Hl & Hwd).
  assert (H : process_file w file_name = (Ok ∅, w)).
  { rewrite (process_file_read _ _ _ _ Hf Hl He). by rewrite Hwd. }
  split; [done|]. unfold main. rewrite H. simpl.
  by rewrite plot_weight_data_empty.
Qed.

Lemma no_weight_lines_witness :
  process_file headers_only_world file_name = (Ok ∅, headers_only_world)
  /\ main (fun _ => Ok tt) headers_only_world = (Raise ValueError, headers_only_world)
  /\ exit_status (main (fun _ => Ok tt) headers_only_world).1 = 1.
Proof.
  apply (no_weight_lines (fun _ => Ok tt) headers_only_world
           {| f_lines := [header_line; str "06:00 Sleep"]; f_error := None |}).
  - reflexivity.
  - reflexivity.
  - repeat constructor.
Defined.

(** X10. [process_file] leaves the file system as it is and prints at most
    one line: nothing when it raises (then the exception is a [ValueError])
    or when the file is read to its end, and one of its two messages when it
    returns after a failed open or read. *)
Theorem process_file_console w name :
  fs (process_file w name).2 = fs w
  /\ (forall e, (process_file w name).1 = Raise e ->
                e = ValueError /\ stdout (process_file w name).2 = stdout w)
  /\ (stdout (process_file w name).2 = stdout w
      \/ stdout (process_file w name).2 = stdout w ++ [not_found_message name]
      \/ stdout (process_file w name).2 = stdout w ++ [read_error_message name]).
Proof.
  split; [apply process_file_fs|]. unfold process_file.
  destruct (fs w name) as [e|f].
  - destruct e; simpl; split; try discriminate; auto.
    by intros e [= <-].
  - destruct (process_lines initial (f_lines f)) as [st [e|]] eqn:Hl.
    + apply process_lines_raises in Hl as ->. simpl. split; [|auto].
      by intros e [= <-].
    + destruct (f_error f) as [[]|]; simpl; split; try discriminate; auto.
      by intros e [= <-].
Qed.

(** ** Lines in the usual layout *)

Lemma prev_after_cons prev c w : prev_after prev (c :: w) = prev_after (Some c) w.
Proof.
  unfold prev_after. destruct w as [|c' w]; [done|].
  rewrite last_cons. by destruct (last (c' :: w)).
Qed.

(** [c+] takes all the characters of the class that are there; when the
    rest of the pattern matches after them, that is the match. *)
Lemma star_greedy p : forall n rest prev k r,
  forallb p n = true ->
  match rest with c :: _ => p c = false | [] => True end ->
  k (prev_after prev n) rest = Some r ->
  star p prev (n ++ rest) k = Some r.
Proof.
  induction n as [|c n IH]; intros rest prev k r Hn Hrest Hk.
  - simpl in *. destruct rest as [|c rest]; [done|]. simpl. by rewrite Hrest.
  - simpl in Hn. apply andb_prop in Hn as [Hc Hn].
    simpl. rewrite Hc. rewrite prev_after_cons in Hk.
    by rewrite (IH _ _ _ _ Hn Hrest Hk).
Qed.

Lemma is_prefix_refl : forall p s, is_prefix p (p ++ s) = true.
Proof.
  induction p as [|c p IH]; intros s; simpl; [done|].
  by rewrite Ascii.eqb_refl, IH.
Qed.

Lemma contains_app : forall a needle b, contains needle (a ++ needle ++ b) = true.
Proof.
  induction a as [|c a IH]; intros needle b.
  - simpl. destruct (needle ++ b) eqn:E; simpl; rewrite <- ?E;
      by rewrite is_prefix_refl.
  - simpl. rewrite IH. apply orb_true_r.
Qed.

Lemma digit_is_word c : is_digit c = true -> is_word c = true.
Proof. destruct c as [[] [] [] [] [] [] [] []]; (discriminate || reflexivity). Qed.

Lemma space_not_word c : is_space c = true -> is_word c = false.
Proof. destruct c as [[] [] [] [] [] [] [] []]; (discriminate || reflexivity). Qed.

Lemma digit_not_W c : is_digit c = true -> Ascii.eqb c "W" = false.
Proof. destruct c as [[] [] [] [] [] [] [] []]; (discriminate || reflexivity). Qed.

Lemma space_not_W c : is_space c = true -> Ascii.eqb c "W" = false.
Proof. destruct c as [[] [] [] [] [] [] [] []]; (discriminate || reflexivity). Qed.

(** A time at the start of a line, followed by white space, is the time the
    time pattern finds. *)
Lemma time_at_start d1 d2 d3 d4 c rest :
  is_digit d1 = true -> is_digit d2 = true ->
  is_digit d3 = true -> is_digit d4 = true ->
  is_space c = true ->
  re_search time_re ([d1; d2; ":"%char; d3; d4] ++ c :: rest)
  = Some {| m_group0 := [d1; d2; ":"%char; d3; d4]; m_rest := c :: rest;
            m_groups := [] |}.
Proof.
  intros H1 H2 H3 H4 Hc. unfold re_search.
  assert (Hm : m false time_re None ([d1; d2; ":"%char; d3; d4] ++ c :: rest) accept
               = Some ([], c :: rest)).
  { unfold time_re. cbn [m app word_at head].
    rewrite (digit_is_word _ H1), (digit_is_word _ H4), (space_not_word _ Hc).
    by rewrite H1, H2, H3, H4. }
  unfold search_from.
  assert (Hat : match_at false time_re None ([d1; d2; ":"%char; d3; d4] ++ c :: rest)
                = Some {| m_group0 := [d1; d2; ":"%char; d3; d4]; m_rest := c :: rest;
                          m_groups := [] |}).
  { unfold match_at. rewrite Hm. by rewrite take_matched. }
  cbn [app] in *. by rewrite Hat.
Qed.

Lemma weight_no_match prev c s :
  Ascii.eqb c "W" = false -> match_at false weight_re prev (c :: s) = None.
Proof.
  intros Hc. unfold match_at, weight_re.
  cbn [m word str list_ascii_of_string fold_right]. unfold lit_eqb. by rewrite Hc.
Qed.

Lemma weight_search_skip : forall skipped s prev,
  forallb (fun c => negb (Ascii.eqb c "W")) skipped = true ->
  search_from false weight_re prev (skipped ++ s)
  = search_from false weight_re (prev_after prev skipped) s.
Proof.
  induction skipped as [|c skipped IH]; intros s prev H; [done|].
  simpl in H. apply andb_prop in H as [Hc H]. apply negb_true_iff in Hc.
  cbn [app search_from]. rewrite (weight_no_match _ _ _ Hc).
  rewrite IH by done. by rewrite prev_after_cons.
Qed.

Lemma search_from_here ic r prev s mo :
  match_at ic r prev s = Some mo -> search_from ic r prev s = Some mo.
Proof. intros H. destruct s; simpl; by rewrite H. Qed.

(** The weight pattern on "Weight", a white space, a number and "kg". *)
Lemma weight_match_here prev sp num post :
  is_space sp = true ->
  num <> [] -> forallb num_char num = true ->
  exists wm,
    match_at false weight_re prev (str "Weight" ++ sp :: num ++ str "kg" ++ post)
    = Some wm
    /\ group wm (str "1") = Some num.
Proof.
  intros Hsp Hne Hnum.
  destruct num as [|c num]; [done|]. simpl in Hnum.
  apply andb_prop in Hnum as [Hc Hnum].
  assert (Hm : m false weight_re prev
                 (str "Weight" ++ sp :: (c :: num) ++ str "kg" ++ post) accept
               = Some ([(str "1", c :: num)], post)).
  { unfold weight_re.
    cbn [m word str list_ascii_of_string fold_right app lit_eqb].
    rewrite !Ascii.eqb_refl, Hsp. unfold num_char in Hc. rewrite Hc.
    rewrite (star_greedy (fun c0 => is_digit c0 || Ascii.eqb c0 ".") num
               ("k" :: "g" :: post)%char (Some c) _
               ([(str "1", c :: num)], post)); [done | done | done |].
    cbn [m lit_eqb accept capture]. rewrite !Ascii.eqb_refl.
    change (c :: num ++ "k"%char :: "g"%char :: post)
      with ((c :: num) ++ "k"%char :: "g"%char :: post).
    by rewrite take_matched. }
  unfold match_at. rewrite Hm. eexists. split; [reflexivity|].
  unfold group. cbn [m_groups]. apply assoc_same.
Qed.

(** A line made of a time, white space, "Weight", a white space, a number
    and "kg": both patterns find their token. *)
Lemma usual_line_tokens d1 d2 d3 d4 gap sp num post :
  is_digit d1 = true -> is_digit d2 = true ->
  is_digit d3 = true -> is_digit d4 = true ->
  gap <> [] -> forallb is_space gap = true -> is_space sp = true ->
  num <> [] -> forallb num_char num = true ->
  let line := [d1; d2; ":"%char; d3; d4] ++ gap ++ str "Weight" ++ sp :: num
              ++ str "kg" ++ post in
  contains (str "Weight") line = true
  /\ (exists tm, re_search time_re line = Some tm
                 /\ m_group0 tm = [d1; d2; ":"%char; d3; d4])
  /\ (exists wm, re_search weight_re line = Some wm
                 /\ group wm (str "1") = Some num).
Proof.
  intros H1 H2 H3 H4 Hgap Hspaces Hsp Hne Hnum line. split; [|split].
  - unfold line.
    change ([d1; d2; ":"%char; d3; d4] ++ gap ++ str "Weight" ++ sp :: num
            ++ str "kg" ++ post)
      with ([d1; d2; ":"%char; d3; d4] ++ gap ++ str "Weight"
            ++ (sp :: num ++ str "kg" ++ post)).
    rewrite (app_assoc _ gap). apply contains_app.
  - unfold line. destruct gap as [|c gap]; [done|].
    simpl in Hspaces. apply andb_prop in Hspaces as [Hc _].
    eexists. split; [by apply time_at_start|done].
  - unfold line, re_search. rewrite (app_assoc _ gap).
    rewrite weight_search_skip.
    + destruct (weight_match_here
                  (prev_after None ([d1; d2; ":"%char; d3; d4] ++ gap))
                  sp num post Hsp Hne Hnum) as (wm & Hwm & Hg).
      exists wm. split; [|done]. by apply search_from_here.
    + rewrite forallb_app. apply andb_true_intro. split.
      * simpl. by rewrite (digit_not_W _ H1), (digit_not_W _ H2),
          (digit_not_W _ H3), (digit_not_W _ H4).
      * clear -Hspaces. induction gap as [|c gap IH]; [done|].
        simpl in *. apply andb_prop in Hspaces as [Hc Hs].
        by rewrite (space_not_W _ Hc), IH.
Qed.

(** X11. A line in the usual layout is recorded: for a line made of a time
    HH:MM, white space, "Weight", one white space, a number that [float]
    accepts, "kg" and anything after it, with HH at most 23 and MM at most
    59, the pass through the loop body does not raise and writes the weight
    under the current date at HH:MM. *)
Theorem usual_line_recorded pre st raw d1 d2 d3 d4 gap sp num post weight :
  process_lines initial pre = (st, None) ->
  line_of raw = [d1; d2; ":"%char; d3; d4] ++ gap ++ str "Weight" ++ sp :: num
                ++ str "kg" ++ post ->
  is_digit d1 = true -> is_digit d2 = true ->
  is_digit d3 = true -> is_digit d4 = true ->
  gap <> [] -> forallb is_space gap = true -> is_space sp = true ->
  num <> [] -> forallb num_char num = true ->
  py_float num = Ok weight ->
  10 * digit_val d1 + digit_val d2 <= 23 ->
  10 * digit_val d3 + digit_val d4 <= 59 ->
  let k := {| year := year (current_date st);
              month := month (current_date st);
              day := day (current_date st);
              hour := 10 * digit_val d1 + digit_val d2;
              minute := 10 * digit_val d3 + digit_val d4;
              second := 0; microsecond := 0 |} in
  process_line st raw
  = Ok {| current_date := k; weight_data := <[k := weight]> (weight_data st) |}.
Proof.
  intros Hpre Hline H1 H2 H3 H4 Hgap Hspaces Hsp Hne Hnum Hf Hh Hmi k.
  apply process_lines_current in Hpre as [Hwf _].
  destruct (usual_line_tokens d1 d2 d3 d4 gap sp num post
              H1 H2 H3 H4 Hgap Hspaces Hsp Hne Hnum)
    as (Hc & (tm & Htm & Hg0) & (wm & Hwm & Hg1)).
  rewrite <- Hline in Hc, Htm, Hwm.
  assert (Hp : parse_weight_entry (line_of raw)
               = Ok (Some ([d1; d2; ":"%char; d3; d4], weight))).
  { unfold parse_weight_entry. rewrite Hc, Htm, Hwm, Hg1, Hg0.
    cbn [of_option bind]. by rewrite Hf. }
  apply (process_line_entry _ _ _ _ _ _ _ Hp (hours_minutes_digits _ _ _ _ H1 H2 H3 H4)).
  apply replace_hm_well_formed; [done| |].
  - apply digit_val_range in H1, H2. lia.
  - apply digit_val_range in H3, H4. lia.
Qed.

Lemma usual_line_recorded_witness :
  let k := {| year := year (current_date after_header);
              month := month (current_date after_header);
              day := day (current_date after_header);
              hour := 10 * digit_val "0" + digit_val "6";
              minute := 10 * digit_val "0" + digit_val "0";
              second := 0; microsecond := 0 |} in
  process_line after_header weight_line_1
  = Ok {| current_date := k;
          weight_data := <[k := (141 # 2)%Q]> (weight_data after_header) |}.
Proof.
  apply (usual_line_recorded [header_line] after_header weight_line_1
           "0" "6" "0" "0" (str " ") " " (str "70.5") [] (141 # 2)%Q)%char;
    try (vm_compute; reflexivity); try discriminate; by vm_compute.
Defined.

(** ** Date headers in the usual layout *)

Lemma month_re_alts : month_re = Group (str "b") (alts (map word months)).
Proof. reflexivity. Qed.

Lemma m_lit ic c x R prev s k :
  lit_eqb ic c x = true ->
  m ic (Seq (Lit c) R) prev (x :: s) k = m ic R (Some x) s k.
Proof. intros H. cbn [m]. by rewrite H. Qed.

Lemma m_plus ic p R prev gap rest k r :
  gap <> [] -> forallb p gap = true ->
  match rest with c :: _ => p c = false | [] => True end ->
  m ic R (prev_after prev gap) rest k = Some r ->
  m ic (Seq (Plus p) R) prev (gap ++ rest) k = Some r.
Proof.
  intros Hne Hgap Hrest Hk. destruct gap as [|c gap]; [done|].
  simpl in Hgap. apply andb_prop in Hgap as [Hc Hgap].
  cbn [m app]. rewrite Hc. rewrite prev_after_cons in Hk.
  by apply star_greedy.
Qed.

Lemma m_group ic name r R prev s k :
  m ic (Seq (Group name r) R) prev s k
  = m ic r prev s (fun p s' =>
      capture name (take (length s - length s') s) (m ic R p s' k)).
Proof. reflexivity. Qed.

Lemma month_token mname mo :
  index (map lower mname) a_month = Some mo ->
  mname <> [] ->
  exists c1 c2 c3, mname = [c1; c2; c3] /\ In [lower c1; lower c2; lower c3] months.
Proof.
  intros H Hne. revert H.
  unfold index, a_month, text_eqb. cbn [map str list_ascii_of_string].
  case_bool_decide as E; [by destruct mname | clear E].
  repeat (case_bool_decide as E;
    [intros _;
     destruct mname as [|c1 [|c2 [|c3 [|c4 w]]]]; simpl in E; try discriminate E;
     exists c1, c2, c3; split; [done|]; rewrite <- E; cbn; tauto
    | clear E]).
  cbn. intros H. discriminate H.
Qed.

Lemma month_alternatives c1 c2 c3 rest prev (k : cont) :
  In [lower c1; lower c2; lower c3] months ->
  m true (alts (map word months)) prev (c1 :: c2 :: c3 :: rest) k
  = k (Some c3) rest.
Proof.
  unfold months. cbn [map str list_ascii_of_string In].
  intros H.
  repeat (destruct H as [H | H];
    [injection H as H1 H2 H3;
     cbn -[lower]; unfold lit_eqb; rewrite <- H1, <- H2, <- H3; cbn;
     by rewrite ?orelse_None_r |]).
  destruct H.
Qed.

Lemma digit_cases c :
  is_digit c = true ->
  In c ["0"; "1"; "2"; "3"; "4"; "5"; "6"; "7"; "8"; "9"]%char.
Proof.
  destruct c as [[] [] [] [] [] [] [] []]; try discriminate; intros _; cbn; tauto.
Qed.

(** The day pattern on two digits that are a day of a month. *)
Lemma day_two_digits d1 d2 rest prev (k : cont) r :
  is_digit d1 = true -> is_digit d2 = true ->
  1 <= 10 * digit_val d1 + digit_val d2 <= 31 ->
  k (Some d2) rest = Some r ->
  m true
    (alts [Seq (Lit "3") (Cls (digit_in 0 1));
           Seq (Cls (digit_in 1 2)) (Cls is_digit);
           Seq (Lit "0") (Cls (digit_in 1 9));
           Cls (digit_in 1 9);
           Seq (Lit " ") (Cls (digit_in 1 9))])
    prev (d1 :: d2 :: rest) k
  = Some r.
Proof.
  intros H1 H2 Hday Hk.
  apply digit_cases in H1, H2. cbn [In] in H1, H2.
  repeat (destruct H1 as [<- | H1]; [|]); try destruct H1;
    repeat (destruct H2 as [<- | H2]; [|]); try destruct H2;
    try (exfalso; vm_compute in Hday; destruct Hday as [Ha Hb];
         (by apply Ha) || (by apply Hb));
    cbn; by rewrite Hk.
Qed.

Lemma capture_intro name v o caps rest :
  o = Some (caps, rest) -> capture name v o = Some ((name, v) :: caps, rest).
Proof. by intros ->. Qed.

Lemma py_int_four_digits a b c d :
  is_digit a = true -> is_digit b = true -> is_digit c = true -> is_digit d = true ->
  py_int [a; b; c; d]
  = Ok (1000 * digit_val a + 100 * digit_val b + 10 * digit_val c + digit_val d).
Proof.
  intros Ha Hb Hc Hd. unfold py_int, strip. cbn [lstrip].
  rewrite (digit_not_space _ Ha). cbn [rev app lstrip].
  rewrite (digit_not_space _ Hd). cbn [rev app forallb].
  rewrite Ha, Hb, Hc, Hd. unfold text_eqb.
  rewrite bool_decide_eq_false_2 by discriminate.
  cbn [negb andb digits_val]. f_equal; lia.
Qed.

Lemma month_letter_not_space c1 c2 c3 :
  In [lower c1; lower c2; lower c3] months -> is_space c1 = false.
Proof.
  intros H. destruct (is_space c1) eqn:Hs; [|done]. exfalso.
  assert (Hl : is_word (lower c1) = false).
  { revert Hs. clear.
    destruct c1 as [[] [] [] [] [] [] [] []]; (discriminate || reflexivity). }
  revert H Hl. unfold months. cbn [map str list_ascii_of_string In].
  intros H Hl.
  repeat (destruct H as [H | H];
    [injection H as H1 _ _; rewrite <- H1 in Hl; discriminate Hl |]).
  destruct H.
Qed.

(** The pattern of the format after the weekday, on a month name, a day of
    two digits and a year of four digits, with commas and white space as in
    the format. *)
Lemma date_tail_match c1 c2 c3 d1 d2 y1 y2 y3 y4 gap1 gap2 gap3 :
  In [lower c1; lower c2; lower c3] months ->
  is_digit d1 = true -> is_digit d2 = true ->
  1 <= 10 * digit_val d1 + digit_val d2 <= 31 ->
  is_digit y1 = true -> is_digit y2 = true ->
  is_digit y3 = true -> is_digit y4 = true ->
  gap1 <> [] -> forallb is_space gap1 = true ->
  gap2 <> [] -> forallb is_space gap2 = true ->
  gap3 <> [] -> forallb is_space gap3 = true ->
  m true date_tail_re None
    ("," :: gap1 ++ [c1; c2; c3] ++ gap2 ++ [d1; d2] ++ "," :: gap3
         ++ [y1; y2; y3; y4])%char accept
  = Some ([(str "b", [c1; c2; c3]); (str "d", [d1; d2]);
           (str "Y", [y1; y2; y3; y4])], []).
Proof.
  intros Hmonth Hd1 Hd2 Hday Hy1 Hy2 Hy3 Hy4 Hn1 Hg1 Hn2 Hg2 Hn3 Hg3.
  unfold date_tail_re. rewrite m_lit by reflexivity.
  apply m_plus; [done | done | |].
  { cbn [app]. by apply month_letter_not_space with c2 c3. }
  rewrite month_re_alts, m_group. cbn [app].
  rewrite month_alternatives by done.
  change (c1 :: c2 :: c3 :: gap2 ++ d1 :: d2 :: ","%char :: gap3 ++ [y1; y2; y3; y4])
    with ([c1; c2; c3] ++ (gap2 ++ d1 :: d2 :: ","%char :: gap3 ++ [y1; y2; y3; y4])).
  rewrite take_matched. apply capture_intro.
  apply m_plus; [done | done | |].
  { cbn [app]. by apply digit_not_space. }
  fold day_re. unfold day_re. rewrite m_group. cbn [app].
  apply day_two_digits; [done | done | done |].
  change (d1 :: d2 :: ","%char :: gap3 ++ [y1; y2; y3; y4])
    with ([d1; d2] ++ (","%char :: gap3 ++ [y1; y2; y3; y4])).
  rewrite take_matched. apply capture_intro.
  rewrite m_lit by reflexivity.
  apply m_plus; [done | done | |].
  { cbn [app]. by apply digit_not_space. }
  unfold year_re. rewrite m_group. cbn [m]. rewrite Hy1, Hy2, Hy3, Hy4.
  change [y1; y2; y3; y4] with ([y1; y2; y3; y4] ++ []) at 1 2.
  rewrite take_matched. by apply capture_intro.
Qed.

(** X12. A date header in the usual layout is accepted: a weekday
    abbreviation, a comma, a month abbreviation, a day of two digits, a
    comma and a year of four digits, with white space where the format has
    it, is a date header whenever day, month and year are a date of the
    calendar — whatever the weekday and the case of the letters — and
    [convert_to_datetime] returns that date at midnight. *)
Theorem usual_header_accepted w i mname mo d1 d2 y1 y2 y3 y4 gap1 gap2 gap3 :
  index (map lower w) a_weekday = Some i ->
  index (map lower mname) a_month = Some mo -> mname <> [] ->
  is_digit d1 = true -> is_digit d2 = true ->
  is_digit y1 = true -> is_digit y2 = true ->
  is_digit y3 = true -> is_digit y4 = true ->
  gap1 <> [] -> forallb is_space gap1 = true ->
  gap2 <> [] -> forallb is_space gap2 = true ->
  gap3 <> [] -> forallb is_space gap3 = true ->
  let d := 10 * digit_val d1 + digit_val d2 in
  let y := 1000 * digit_val y1 + 100 * digit_val y2
           + 10 * digit_val y3 + digit_val y4 in
  valid_date y mo d = true ->
  convert_to_datetime
    (w ++ "," :: gap1 ++ mname ++ gap2 ++ [d1; d2] ++ "," :: gap3
       ++ [y1; y2; y3; y4])%char
  = Some (dt y mo d 0 0).
Proof.
  intros Hw Hmo Hne Hd1 Hd2 Hy1 Hy2 Hy3 Hy4 Hn1 Hg1 Hn2 Hg2 Hn3 Hg3 d y Hvalid.
  destruct (month_token _ _ Hmo Hne) as (c1 & c2 & c3 & -> & Hmonth).
  rewrite (convert_to_datetime_weekday _ _ _ Hw). unfold strptime_tail.
  assert (Hday : 1 <= d <= 31).
  { unfold valid_date, between, days_in_month in Hvalid.
    repeat match type of Hvalid with
           | context [if ?b then _ else _] => destruct b
           end; lia. }
  rewrite date_tail_match by done.
  unfold text_eqb. rewrite bool_decide_eq_true_2 by done. cbn [negb].
  unfold field, group. cbn [m_groups].
  rewrite !assoc_other by discriminate. rewrite assoc_same.
  rewrite py_int_four_digits by done. cbn [bind].
  rewrite assoc_same, Hmo. cbn [of_option bind].
  rewrite !assoc_other by discriminate. rewrite assoc_same.
  rewrite py_int_two_digits by done. cbn [bind].
  unfold mk_datetime. fold d y. rewrite Hvalid. reflexivity.
Qed.

Lemma usual_header_accepted_witness :
  convert_to_datetime
    (str "mon" ++ "," :: str " " ++ str "NOV" ++ str "  " ++ ["0"; "6"] ++ ","
       :: str " " ++ ["2"; "0"; "2"; "4"])%char
  = Some (dt (1000 * digit_val "2" + 100 * digit_val "0"
              + 10 * digit_val "2" + digit_val "4") 11
             (10 * digit_val "0" + digit_val "6") 0 0).
Proof.
  apply (usual_header_accepted (str "mon") 0 (str "NOV") 11
           "0" "6" "2" "0" "2" "4" (str " ") (str "  ") (str " "))%char;
    try (vm_compute; reflexivity); discriminate.
Defined.
